(** * The identity-user resource of the ECL provider

    A shallow embedding of [ecl/resource_ecl_identity_user_v3.go]: the four
    CRUD callbacks of the [ecl_identity_user_v3] resource and the helper that
    flattens the multi-factor-auth rule groups, followed by the properties
    the specification states about them.

    The callbacks are plumbing between two libraries: the plugin SDK's
    [schema.ResourceData] (the configuration snapshot [d]) and the
    [eclcloud] client of the identity service.  Both are modelled below by
    what their documentation promises; the callbacks themselves are
    transcribed statement by statement. *)

From stdpp Require Import gmap strings list fin_maps.

Set Warnings "-register-all".

(** ** Dynamic values

    Go's [interface{}] as far as this resource meets it: the values held in
    a snapshot, in the [extra] map and in the options map of a user. *)

Inductive value : Type :=
| VNil
| VBool (b : bool)
| VString (s : string)
| VList (l : list value)
| VMap (m : gmap string value).

(** [reflect.DeepEqual] on such values is structural equality; maps are
    compared by their lookups, which is equality on [gmap]. *)
#[global] Instance value_eq_dec : EqDecision value.
Proof.
  refine (fix go (x y : value) {struct x} : Decision (x = y) :=
    let _ : EqDecision value := @go in
    match x, y with
    | VNil, VNil => left _
    | VBool a, VBool b => cast_if (decide (a = b))
    | VString a, VString b => cast_if (decide (a = b))
    | VList a, VList b => cast_if (decide (a = b))
    | VMap a, VMap b => cast_if (decide (a = b))
    | _, _ => right _
    end); abstract congruence.
Defined.

(** The result of running Go code: a value, a returned [error], or a
    run-time panic (a failed type assertion [v.(T)]). *)
Inductive error : Type :=
| ErrDefault404
| ErrMsg (msg : string).

Definition error_string (e : error) : string :=
  match e with
  | ErrDefault404 => "Resource not found"
  | ErrMsg m => m
  end.

(** [fmt.Errorf(prefix ++ "%s", err)] *)
Definition Errorf (prefix : string) (e : error) : error :=
  ErrMsg (prefix +:+ error_string e).

Inductive outcome (A : Type) : Type :=
| Ok (a : A)
| Err (e : error)
| Panic.
Arguments Ok {A} a.
Arguments Err {A} e.
Arguments Panic {A}.

(** The three single-result type assertions the source uses. *)
Definition as_bool (v : value) : outcome bool :=
  match v with VBool b => Ok b | _ => Panic end.
Definition as_string (v : value) : outcome string :=
  match v with VString s => Ok s | _ => Panic end.
Definition as_list (v : value) : outcome (list value) :=
  match v with VList l => Ok l | _ => Panic end.
Definition as_map (v : value) : outcome (gmap string value) :=
  match v with VMap m => Ok m | _ => Panic end.

(** ** resourceIdentityUserV3BuildMFARules (lines 301-311) *)

(** One iteration of the loop body: the two type assertions, then the
    rule list as it is. *)
Definition mfaRuleList (rule : value) : outcome value :=
  match rule with
  | VMap ruleMap =>
      match ruleMap !! "rule" with
      | Some (VList ruleList) => Ok (VList ruleList)
      | _ => Panic
      end
  | _ => Panic
  end.

Fixpoint BuildMFARules_from (mfaRules : list value) (rules : list value)
  : outcome (list value) :=
  match rules with
  | [] => Ok mfaRules
  | rule :: rest =>
      match mfaRuleList rule with
      | Ok ruleList => BuildMFARules_from (mfaRules ++ [ruleList]) rest
      | Err e => Err e
      | Panic => Panic
      end
  end.

Definition resourceIdentityUserV3BuildMFARules (rules : list value)
  : outcome (list value) :=
  BuildMFARules_from [] rules.

(** A group that carries the rule list [r] under its [rule] field. *)
Definition carries_rule (group : value) (r : list value) : Prop :=
  ∃ m, group = VMap m ∧ m !! "rule" = Some (VList r).

(** ** The schema (lines 28-111) *)

Inductive ValueType : Type := TypeBool | TypeString | TypeMap | TypeList.

Definition Schema : list (string * ValueType) :=
  [ ("default_project_id", TypeString);
    ("description", TypeString);
    ("domain_id", TypeString);
    ("enabled", TypeBool);
    ("extra", TypeMap);
    ("name", TypeString);
    ("password", TypeString);
    ("region", TypeString);
    ("ignore_change_password_upon_first_use", TypeBool);
    ("ignore_password_expiry", TypeBool);
    ("ignore_lockout_failure_attempts", TypeBool);
    ("multi_factor_auth_enabled", TypeBool);
    ("multi_factor_auth_rule", TypeList) ].

Fixpoint schema_type (sch : list (string * ValueType)) (key : string)
  : option ValueType :=
  match sch with
  | [] => None
  | (k, t) :: rest => if String.eqb k key then Some t else schema_type rest key
  end.

(** [Type.Zero()] of the SDK: the value [Get] reports for a field that
    holds nothing. *)
Definition zero (t : ValueType) : value :=
  match t with
  | TypeBool => VBool false
  | TypeString => VString ""
  | TypeMap => VMap ∅
  | TypeList => VList []
  end.

Definition zero_of (key : string) : value :=
  match schema_type Schema key with
  | Some t => zero t
  | None => VNil
  end.

(** What the schema admits under a field.  The one list field of this
    schema is [multi_factor_auth_rule], whose elements are groups with a
    required [rule] list of at least one string (lines 97-110). *)
Definition is_string (v : value) : bool :=
  match v with VString _ => true | _ => false end.

Definition is_rule_group (v : value) : bool :=
  match v with
  | VMap m =>
      match m !! "rule" with
      | Some (VList (r :: rs)) => forallb is_string (r :: rs)
      | _ => false
      end
  | _ => false
  end.

Definition has_type (t : ValueType) (v : value) : bool :=
  match t, v with
  | TypeBool, VBool _ => true
  | TypeString, VString _ => true
  | TypeMap, VMap _ => true
  | TypeList, VList l => forallb is_rule_group l
  | _, _ => false
  end.

(** ** The snapshot: [schema.ResourceData]

    The SDK reads a field through a stack of levels.  Three of them matter
    to the callbacks: the last known [state], the [planned] values (state
    merged with the configuration and its diff), and what the callback
    itself has [written] with [d.Set].  [Get] and [GetOk] read the topmost
    level that holds the field; [HasChange] compares [state] with
    [planned]. *)
Record ResourceData : Type := mkResourceData {
  rd_id : string;
  state : gmap string value;
  planned : gmap string value;
  written : gmap string value;
}.

(** The raw read: the value held, if any level holds one. *)
Definition getRaw (d : ResourceData) (key : string) : option value :=
  match written d !! key with
  | Some v => Some v
  | None => planned d !! key
  end.

(** [d.Get(key)]: the value, or the zero value of the field's type. *)
Definition Get (d : ResourceData) (key : string) : value :=
  default (zero_of key) (getRaw d key).

(** [d.GetOk(key)]: "returns the data for the given key and whether or not
    the key has been set to a non-zero value at some point" (SDK
    documentation).  The flag is false for a field that is absent and for
    one that holds the zero value of its type. *)
Definition GetOk (d : ResourceData) (key : string) : value * bool :=
  match getRaw d key with
  | Some v => (v, negb (bool_decide (v = zero_of key)))
  | None => (zero_of key, false)
  end.

(** [d.HasChange(key)]: old and new value are not deeply equal. *)
Definition HasChange (d : ResourceData) (key : string) : bool :=
  negb (bool_decide (default (zero_of key) (state d !! key)
                     = default (zero_of key) (planned d !! key))).

(** [d.Set(key, v)]; the callbacks ignore the error it may return. *)
Definition Set_ (d : ResourceData) (key : string) (v : value) : ResourceData :=
  mkResourceData (rd_id d) (state d) (planned d) (<[key := v]> (written d)).

Definition SetId (d : ResourceData) (id : string) : ResourceData :=
  mkResourceData id (state d) (planned d) (written d).

Definition Id (d : ResourceData) : string := rd_id d.

(** A snapshot as the SDK hands it to a callback: every field it holds is a
    field of the schema and has that field's type. *)
Definition field_ok (key : string) (v : value) : bool :=
  match schema_type Schema key with
  | Some t => has_type t v
  | None => false
  end.

Definition level_ok (m : gmap string value) : bool :=
  bool_decide (map_Forall (λ k v, field_ok k v = true) m).

Definition conforms (d : ResourceData) : bool :=
  level_ok (state d) && level_ok (planned d) && level_ok (written d).

(** ** The client library: [eclcloud/ecl/identity/v3/users] *)

(** [users.Option] and its five constants. *)
Inductive Option : Type :=
| IgnoreChangePasswordUponFirstUse
| IgnorePasswordExpiry
| IgnoreLockoutFailureAttempts
| MultiFactorAuthEnabled
| MultiFactorAuthRules.

#[global] Instance Option_eq_dec : EqDecision Option.
Proof. solve_decision. Defined.

#[global] Instance Option_countable : Countable Option.
Proof.
  refine (inj_countable'
    (λ o, match o with
          | IgnoreChangePasswordUponFirstUse => 0
          | IgnorePasswordExpiry => 1
          | IgnoreLockoutFailureAttempts => 2
          | MultiFactorAuthEnabled => 3
          | MultiFactorAuthRules => 4
          end)
    (λ n, match n with
          | 0 => IgnoreChangePasswordUponFirstUse
          | 1 => IgnorePasswordExpiry
          | 2 => IgnoreLockoutFailureAttempts
          | 3 => MultiFactorAuthEnabled
          | _ => MultiFactorAuthRules
          end) _).
  by intros [].
Defined.

(** [users.CreateOpts]; [Enabled] is a [*bool], nil being [None]. *)
Record CreateOpts : Type := mkCreateOpts {
  co_Name : string;
  co_DefaultProjectID : string;
  co_Description : string;
  co_DomainID : string;
  co_Enabled : option bool;
  co_Extra : gmap string value;
  co_Options : gmap Option value;
  co_Password : string;
}.

(** [users.UpdateOpts]; the zero value of the struct is [UpdateOpts0]. *)
Record UpdateOpts : Type := mkUpdateOpts {
  uo_Name : string;
  uo_DefaultProjectID : string;
  uo_Description : string;
  uo_DomainID : string;
  uo_Enabled : option bool;
  uo_Extra : option (gmap string value);
  uo_Options : option (gmap Option value);
  uo_Password : string;
}.

Definition UpdateOpts0 : UpdateOpts :=
  mkUpdateOpts "" "" "" "" None None None "".

(** Assignments to single fields of the two structs. *)
Definition set_co_Password (v : string) (o : CreateOpts) : CreateOpts :=
  {| co_Name := co_Name o;
     co_DefaultProjectID := co_DefaultProjectID o;
     co_Description := co_Description o;
     co_DomainID := co_DomainID o;
     co_Enabled := co_Enabled o;
     co_Extra := co_Extra o;
     co_Options := co_Options o;
     co_Password := v |}.

Definition set_uo_Name (v : string) (o : UpdateOpts) : UpdateOpts :=
  mkUpdateOpts v (uo_DefaultProjectID o) (uo_Description o) (uo_DomainID o)
               (uo_Enabled o) (uo_Extra o) (uo_Options o) (uo_Password o).
Definition set_uo_DefaultProjectID (v : string) (o : UpdateOpts) : UpdateOpts :=
  mkUpdateOpts (uo_Name o) v (uo_Description o) (uo_DomainID o)
               (uo_Enabled o) (uo_Extra o) (uo_Options o) (uo_Password o).
Definition set_uo_Description (v : string) (o : UpdateOpts) : UpdateOpts :=
  mkUpdateOpts (uo_Name o) (uo_DefaultProjectID o) v (uo_DomainID o)
               (uo_Enabled o) (uo_Extra o) (uo_Options o) (uo_Password o).
Definition set_uo_DomainID (v : string) (o : UpdateOpts) : UpdateOpts :=
  mkUpdateOpts (uo_Name o) (uo_DefaultProjectID o) (uo_Description o) v
               (uo_Enabled o) (uo_Extra o) (uo_Options o) (uo_Password o).
Definition set_uo_Enabled (v : option bool) (o : UpdateOpts) : UpdateOpts :=
  mkUpdateOpts (uo_Name o) (uo_DefaultProjectID o) (uo_Description o)
               (uo_DomainID o) v (uo_Extra o) (uo_Options o) (uo_Password o).
Definition set_uo_Extra (v : option (gmap string value)) (o : UpdateOpts)
  : UpdateOpts :=
  mkUpdateOpts (uo_Name o) (uo_DefaultProjectID o) (uo_Description o)
               (uo_DomainID o) (uo_Enabled o) v (uo_Options o) (uo_Password o).
Definition set_uo_Options (v : option (gmap Option value)) (o : UpdateOpts)
  : UpdateOpts :=
  mkUpdateOpts (uo_Name o) (uo_DefaultProjectID o) (uo_Description o)
               (uo_DomainID o) (uo_Enabled o) (uo_Extra o) v (uo_Password o).
Definition set_uo_Password (v : string) (o : UpdateOpts) : UpdateOpts :=
  mkUpdateOpts (uo_Name o) (uo_DefaultProjectID o) (uo_Description o)
               (uo_DomainID o) (uo_Enabled o) (uo_Extra o) (uo_Options o) v.

(** [users.User], the fields the callbacks read. *)
Record User : Type := mkUser {
  u_DefaultProjectID : string;
  u_Description : string;
  u_DomainID : string;
  u_Enabled : bool;
  u_Extra : gmap string value;
  u_ID : string;
  u_Name : string;
  u_Options : gmap string value;
}.

(** ** The table of option flags (lines 11-16) *)
Definition userOptions : list (Option * string) :=
  [ (IgnoreChangePasswordUponFirstUse, "ignore_change_password_upon_first_use");
    (IgnorePasswordExpiry, "ignore_password_expiry");
    (IgnoreLockoutFailureAttempts, "ignore_lockout_failure_attempts");
    (MultiFactorAuthEnabled, "multi_factor_auth_enabled") ].


(** ** The world a callback runs in *)

(** What a callback leaves behind besides the snapshot: the debug log
    entries ([log.Printf] with the format and the struct printed by
    [%#v]) and the requests sent to the identity service, in order. *)
Inductive Printed : Type :=
| PCreateOpts (o : CreateOpts)
| PUpdateOpts (o : UpdateOpts)
| PUser (u : User).

Inductive Call : Type :=
| CallCreate (o : CreateOpts)
| CallGet (id : string)
| CallUpdate (id : string) (o : UpdateOpts)
| CallDelete (id : string).

Inductive Event : Type :=
| Log (format : string) (arg : Printed)
| Request (c : Call).

(** [meta]: the provider configuration and, behind it, the identity
    service with its own state [R].  [GetRegion] and [identityV3Client]
    belong to files of the provider other than this one and are taken as
    given; the four [users] calls are the client library's. *)
Record Meta (R : Type) : Type := mkMeta {
  GetRegion : ResourceData → string;
  identityV3Client : string → error + string;
  users_Create : string → CreateOpts → R → (error + User) * R;
  users_Get : string → string → R → (error + User) * R;
  users_Update : string → string → UpdateOpts → R → (error + User) * R;
  users_Delete : string → string → R → option error * R;
}.
Arguments GetRegion {R}.
Arguments identityV3Client {R}.
Arguments users_Create {R}.
Arguments users_Get {R}.
Arguments users_Update {R}.
Arguments users_Delete {R}.

Record St (R : Type) : Type := mkSt {
  d : ResourceData;
  remote : R;
  trace : list Event;
}.
Arguments mkSt {R}.
Arguments d {R}.
Arguments remote {R}.
Arguments trace {R}.

(** Go statements: they read and change the world and end with a value,
    a returned error or a panic; whatever was changed before stays
    changed. *)
Definition M (R A : Type) : Type := St R → outcome A * St R.

#[global] Instance M_ret {R} : MRet (M R) := λ A a st, (Ok a, st).

#[global] Instance M_bind {R} : MBind (M R) := λ A B f m st,
  match m st with
  | (Ok a, st') => f a st'
  | (Err e, st') => (Err e, st')
  | (Panic, st') => (Panic, st')
  end.

Section Callbacks.
Context {R : Type} (meta : Meta R).

Definition lift {A} (o : outcome A) : M R A := λ st, (o, st).

(** [return err] *)
Definition fail {A} (e : error) : M R A := lift (Err e).

Definition read {A} (f : ResourceData → A) : M R A := λ st, (Ok (f (d st)), st).

Definition update (f : ResourceData → ResourceData) : M R unit :=
  λ st, (Ok tt, mkSt (f (d st)) (remote st) (trace st)).

Definition emit (e : Event) : M R unit :=
  λ st, (Ok tt, mkSt (d st) (remote st) (trace st ++ [e])).

(** A request: recorded, then answered by the service. *)
Definition request {A} (c : Call) (answer : R → A * R) : M R A :=
  λ st, let '(a, r) := answer (remote st) in
        (Ok a, mkSt (d st) r (trace st ++ [Request c])).

Definition log_Printf (format : string) (arg : Printed) : M R unit :=
  emit (Log format arg).

(** [d.Get(key).(bool)], [d.Get(key).(string)] and the like. *)
Definition getBool (key : string) : M R bool :=
  read (λ d, Get d key) ≫= lift ∘ as_bool.
Definition getString (key : string) : M R string :=
  read (λ d, Get d key) ≫= lift ∘ as_string.
Definition getMap (key : string) : M R (gmap string value) :=
  read (λ d, Get d key) ≫= lift ∘ as_map.
Definition getList (key : string) : M R (list value) :=
  read (λ d, Get d key) ≫= lift ∘ as_list.

(** [if d.HasChange(key) { ... }] around a block that rebinds [a]. *)
Definition ifChanged {A} (key : string) (a : A) (body : M R A) : M R A :=
  changed ← read (λ d, HasChange d key);
  if changed : bool then body else mret a.

(** [config.identityV3Client(GetRegion(d, config))] with the check that
    opens every callback. *)
Definition newClient : M R string :=
  region ← read (GetRegion meta);
  match identityV3Client meta region with
  | inl err => fail (Errorf "Error creating ECL identity client: " err)
  | inr identityClient => mret identityClient
  end.

(** [for ... range]: the body once per entry, threading what it builds. *)
Fixpoint forRange {A B} (l : list A) (body : B → A → M R B) (b : B) : M R B :=
  match l with
  | [] => mret b
  | a :: rest => b' ← body b a; forRange rest body b'
  end.

(** Modelled from the spec: [CheckDeleted], a helper of the provider that
    is defined outside this file.  "If the remote reports it missing,
    signal deletion-of-local-record (the snapshot is cleared rather than
    erroring the whole operation) - any other failure is a hard error."
    The record is given up by resetting its ID, upon which the framework
    drops it. *)
Definition CheckDeleted (err : error) (msg : string) : M R unit :=
  match err with
  | ErrDefault404 => update (λ d, SetId d "")
  | _ => fail (Errorf (msg +:+ ": ") err)
  end.

(** *** resourceIdentityUserV3Read (lines 163-205) *)

(** The body of the loop over [userOptions] (lines 187-189). *)
Definition Read_option (options : gmap string value)
    (_ : unit) (entry : Option * string) : M R unit :=
  let '(_, option) := entry in
  match options !! option with
  | Some v =>
      b ← lift (as_bool v);
      update (λ d, Set_ d option (VBool b))
  | None => mret tt
  end.

Definition resourceIdentityUserV3Read : M R unit :=
  identityClient ← newClient;
  id ← read Id;
  got ← request (CallGet id) (users_Get meta identityClient id);
  match got with
  | inl err => CheckDeleted err "user"
  | inr user =>
      log_Printf "[DEBUG] Retrieved ECL user: %#v" (PUser user);;
      update (λ d, Set_ d "default_project_id" (VString (u_DefaultProjectID user)));;
      update (λ d, Set_ d "description" (VString (u_Description user)));;
      update (λ d, Set_ d "domain_id" (VString (u_DomainID user)));;
      update (λ d, Set_ d "enabled" (VBool (u_Enabled user)));;
      update (λ d, Set_ d "extra" (VMap (u_Extra user)));;
      update (λ d, Set_ d "name" (VString (u_Name user)));;
      region ← read (GetRegion meta);
      update (λ d, Set_ d "region" (VString region));;
      let options := u_Options user in
      forRange userOptions (Read_option options) tt;;
      match options !! "multi_factor_auth_rules" with
      | Some (VList v) =>
          let mfaRules := (λ v, VMap {[ "rule" := v ]}) <$> v in
          update (λ d, Set_ d "multi_factor_auth_rule" (VList mfaRules))
      | _ => mret tt
      end
  end.

(** *** resourceIdentityUserV3Create (lines 115-161) *)

(** The body of the loop over [userOptions] (lines 135-137). *)
Definition Create_option (options : gmap Option value)
    (entry : Option * string) : M R (gmap Option value) :=
  let '(optionType, option) := entry in
  '(v, ok) ← read (λ d, GetOk d option);
  if ok : bool then
    b ← lift (as_bool v);
    mret (<[optionType := VBool b]> options)
  else mret options.

Definition resourceIdentityUserV3Create : M R unit :=
  identityClient ← newClient;
  enabled ← getBool "enabled";
  default_project_id ← getString "default_project_id";
  description ← getString "description";
  domain_id ← getString "domain_id";
  extra ← getMap "extra";
  name ← getString "name";
  (* Build the user options *)
  options ← forRange userOptions Create_option (∅ : gmap Option value);
  (* Build the MFA rules *)
  rules ← getList "multi_factor_auth_rule";
  mfaRules ← lift (resourceIdentityUserV3BuildMFARules rules);
  let options :=
    if 0 <? length mfaRules
    then <[MultiFactorAuthRules := VList mfaRules]> options
    else options in
  let createOpts :=
    {| co_Name := name;
       co_DefaultProjectID := default_project_id;
       co_Description := description;
       co_DomainID := domain_id;
       co_Enabled := Some enabled;
       co_Extra := extra;
       co_Options := options;
       co_Password := "" |} in
  log_Printf "[DEBUG] Create Options: %#v" (PCreateOpts createOpts);;
  (* Add password here so it wouldn't go in the above log entry *)
  password ← getString "password";
  let createOpts := set_co_Password password createOpts in
  created ← request (CallCreate createOpts)
                    (users_Create meta identityClient createOpts);
  match created with
  | inl err => fail (Errorf "Error creating ECL user: " err)
  | inr user =>
      update (λ d, SetId d (u_ID user));;
      resourceIdentityUserV3Read
  end.

(** *** resourceIdentityUserV3Update (lines 207-284) *)

(** The body of the loop over [userOptions] (lines 251-254). *)
Definition Update_option (acc : bool * gmap Option value)
    (entry : Option * string) : M R (bool * gmap Option value) :=
  let '(hasChange, options) := acc in
  let '(optionType, option) := entry in
  ifChanged option (hasChange, options)
    (b ← getBool option;
     mret (true, <[optionType := VBool b]> options)).

Definition resourceIdentityUserV3Update : M R unit :=
  identityClient ← newClient;
  let hasChange := false in
  let updateOpts := UpdateOpts0 in
  '(hasChange, updateOpts) ←
    ifChanged "default_project_id" (hasChange, updateOpts)
      (v ← getString "default_project_id";
       mret (true, set_uo_DefaultProjectID v updateOpts));
  '(hasChange, updateOpts) ←
    ifChanged "description" (hasChange, updateOpts)
      (v ← getString "description";
       mret (true, set_uo_Description v updateOpts));
  '(hasChange, updateOpts) ←
    ifChanged "domain_id" (hasChange, updateOpts)
      (v ← getString "domain_id";
       mret (true, set_uo_DomainID v updateOpts));
  '(hasChange, updateOpts) ←
    ifChanged "enabled" (hasChange, updateOpts)
      (enabled ← getBool "enabled";
       mret (true, set_uo_Enabled (Some enabled) updateOpts));
  '(hasChange, updateOpts) ←
    ifChanged "extra" (hasChange, updateOpts)
      (v ← getMap "extra";
       mret (true, set_uo_Extra (Some v) updateOpts));
  '(hasChange, updateOpts) ←
    ifChanged "name" (hasChange, updateOpts)
      (v ← getString "name";
       mret (true, set_uo_Name v updateOpts));
  (* Determine if the options have changed *)
  '(hasChange, options) ←
    forRange userOptions Update_option (hasChange, (∅ : gmap Option value));
  (* Build the MFA rules *)
  options ←
    ifChanged "multi_factor_auth_rule" options
      (rules ← getList "multi_factor_auth_rule";
       mfaRules ← lift (resourceIdentityUserV3BuildMFARules rules);
       mret (if 0 <? length mfaRules
             then <[MultiFactorAuthRules := VList mfaRules]> options
             else options));
  let updateOpts := set_uo_Options (Some options) updateOpts in
  (if hasChange : bool
   then log_Printf "[DEBUG] Update Options: %#v" (PUpdateOpts updateOpts)
   else mret tt);;
  '(hasChange, updateOpts) ←
    ifChanged "password" (hasChange, updateOpts)
      (v ← getString "password";
       mret (true, set_uo_Password v updateOpts));
  (if hasChange : bool
   then
     id ← read Id;
     updated ← request (CallUpdate id updateOpts)
                       (users_Update meta identityClient id updateOpts);
     match updated with
     | inl err => fail (Errorf "Error updating ECL user: " err)
     | inr _ => mret tt
     end
   else mret tt);;
  resourceIdentityUserV3Read.

(** *** resourceIdentityUserV3Delete (lines 286-299) *)
Definition resourceIdentityUserV3Delete : M R unit :=
  identityClient ← newClient;
  id ← read Id;
  err ← request (CallDelete id) (users_Delete meta identityClient id);
  match err with
  | Some err => fail (Errorf "Error deleting ECL user: " err)
  | None => mret tt
  end.

End Callbacks.


(** ** Running a callback *)

Definition run {R A} (op : M R A) (d0 : ResourceData) (r : R)
  : outcome A * St R :=
  op (mkSt d0 r []).

Definition requests (tr : list Event) : list Call :=
  omap (λ e, match e with Request c => Some c | Log _ _ => None end) tr.

Definition logged (tr : list Event) : list (string * Printed) :=
  omap (λ e, match e with Log f a => Some (f, a) | Request _ => None end) tr.

(** A service that answers from a script, whatever it is asked: enough to
    run the callbacks on closed inputs. *)
Definition scripted (client : error + string)
    (created got updated : error + User) (deleted : option error) : Meta unit :=
  {| GetRegion := λ d,
       match GetOk d "region" with
       | (VString region, true) => region
       | _ => "jp1"
       end;
     identityV3Client := λ _, client;
     users_Create := λ _ _ r, (created, r);
     users_Get := λ _ _ r, (got, r);
     users_Update := λ _ _ _ r, (updated, r);
     users_Delete := λ _ _ r, (deleted, r) |}.


(** ** What a callback leaves in the snapshot, as functions

    The callbacks read the snapshot and write into its top level.  The
    functions below describe those writes without the world around them;
    the properties relate them to the callbacks. *)

(** The writes of the loop over the option flags in Read. *)
Fixpoint flagWrites (options : gmap string value)
    (table : list (Option * string)) (w : gmap string value)
  : gmap string value :=
  match table with
  | [] => w
  | (_, option) :: rest =>
      flagWrites options rest
        match options !! option with
        | Some (VBool b) => <[option := VBool b]> w
        | _ => w
        end
  end.

(** Every flag the service reports is reported as a boolean. *)
Definition flags_boolean (options : gmap string value)
    (table : list (Option * string)) : Prop :=
  Forall (λ entry, ∀ v, options !! entry.2 = Some v → ∃ b, v = VBool b) table.

(** The snapshot once the scalar fields of [user] are written. *)
Definition Read_scalars (user : User) (d : ResourceData) : ResourceData :=
  Set_ (Set_ (Set_ (Set_ (Set_ (Set_ d
    "default_project_id" (VString (u_DefaultProjectID user)))
    "description" (VString (u_Description user)))
    "domain_id" (VString (u_DomainID user)))
    "enabled" (VBool (u_Enabled user)))
    "extra" (VMap (u_Extra user)))
    "name" (VString (u_Name user)).

(** One group per flattened entry. *)
Definition mfaGroup (v : value) : value := VMap {[ "rule" := v ]}.

(** The snapshot at the end of a Read that fetched [user]. *)
Definition Read_result {R} (meta : Meta R) (user : User) (d : ResourceData)
  : ResourceData :=
  let d1 := Read_scalars user d in
  let d2 := Set_ d1 "region" (VString (GetRegion meta d1)) in
  let w := flagWrites (u_Options user) userOptions (written d2) in
  mkResourceData (rd_id d) (state d) (planned d)
    match u_Options user !! "multi_factor_auth_rules" with
    | Some (VList v) => <["multi_factor_auth_rule" := VList (mfaGroup <$> v)]> w
    | _ => w
    end.

(** The values the type assertions yield on a well-typed snapshot. *)
Definition the_bool (v : value) : bool :=
  match v with VBool b => b | _ => false end.
Definition the_string (v : value) : string :=
  match v with VString s => s | _ => "" end.
Definition the_map (v : value) : gmap string value :=
  match v with VMap m => m | _ => ∅ end.
Definition the_list (v : value) : list value :=
  match v with VList l => l | _ => [] end.

(** The flattened rules of the snapshot. *)
Definition the_rules (d : ResourceData) : list value :=
  match resourceIdentityUserV3BuildMFARules
          (the_list (Get d "multi_factor_auth_rule")) with
  | Ok mfaRules => mfaRules
  | _ => []
  end.

(** [if len(mfaRules) > 0 { options[users.MultiFactorAuthRules] = mfaRules }] *)
Definition with_rules (mfaRules : list value) (options : gmap Option value)
  : gmap Option value :=
  if 0 <? length mfaRules
  then <[MultiFactorAuthRules := VList mfaRules]> options
  else options.

(** The options Create collects from the flags. *)
Fixpoint Create_flags (d : ResourceData) (table : list (Option * string))
    (options : gmap Option value) : gmap Option value :=
  match table with
  | [] => options
  | (optionType, option) :: rest =>
      Create_flags d rest
        (let '(v, ok) := GetOk d option in
         if ok : bool then <[optionType := VBool (the_bool v)]> options
         else options)
  end.

(** [createOpts] as it is logged: everything but the password. *)
Definition Create_opts (d : ResourceData) : CreateOpts :=
  {| co_Name := the_string (Get d "name");
     co_DefaultProjectID := the_string (Get d "default_project_id");
     co_Description := the_string (Get d "description");
     co_DomainID := the_string (Get d "domain_id");
     co_Enabled := Some (the_bool (Get d "enabled"));
     co_Extra := the_map (Get d "extra");
     co_Options := with_rules (the_rules d) (Create_flags d userOptions ∅);
     co_Password := "" |}.

(** One [if d.HasChange(key) { ... }] block of Update, on the pair of
    [hasChange] and [updateOpts]. *)
Definition changed_field {A} (d : ResourceData) (key : string)
    (get : value → A) (set : A → UpdateOpts → UpdateOpts)
    (acc : bool * UpdateOpts) : bool * UpdateOpts :=
  if HasChange d key then (true, set (get (Get d key)) acc.2) else acc.

(** The options Update collects from the flags that changed. *)
Fixpoint Update_flags (d : ResourceData) (table : list (Option * string))
    (acc : bool * gmap Option value) : bool * gmap Option value :=
  match table with
  | [] => acc
  | (optionType, option) :: rest =>
      Update_flags d rest
        (if HasChange d option
         then (true, <[optionType := VBool (the_bool (Get d option))]> acc.2)
         else acc)
  end.

(** [hasChange] and [updateOpts] where Update writes its log entry
    (line 267), and where it decides on the request (line 276). *)
Definition Update_plan (d : ResourceData) : bool * UpdateOpts :=
  let acc := (false, UpdateOpts0) in
  let acc := changed_field d "default_project_id" the_string
               set_uo_DefaultProjectID acc in
  let acc := changed_field d "description" the_string set_uo_Description acc in
  let acc := changed_field d "domain_id" the_string set_uo_DomainID acc in
  let acc := changed_field d "enabled" (λ v, Some (the_bool v))
               set_uo_Enabled acc in
  let acc := changed_field d "extra" (λ v, Some (the_map v)) set_uo_Extra acc in
  let acc := changed_field d "name" the_string set_uo_Name acc in
  let flags := Update_flags d userOptions (acc.1, ∅) in
  let options :=
    if HasChange d "multi_factor_auth_rule"
    then with_rules (the_rules d) flags.2
    else flags.2 in
  (flags.1, set_uo_Options (Some options) acc.2).

Definition Update_final (d : ResourceData) : bool * UpdateOpts :=
  changed_field d "password" the_string set_uo_Password (Update_plan d).

(** The fields whose change makes Update send a request: each sets
    [hasChange] (lines 217-255 and 271-274). *)
Definition tracked : list string :=
  [ "password";
    "ignore_change_password_upon_first_use";
    "ignore_password_expiry";
    "ignore_lockout_failure_attempts";
    "multi_factor_auth_enabled";
    "name"; "extra"; "enabled"; "domain_id"; "description";
    "default_project_id" ].

(** What Read adds to the trace: the fetch, and the log entry that prints
    the user fetched. *)
Definition Read_events (extra : list Event) : Prop :=
  ∀ e, e ∈ extra →
    (∃ id, e = Request (CallGet id))
    ∨ (∃ u, e = Log "[DEBUG] Retrieved ECL user: %#v" (PUser u)).


(** ** Closed inputs

    A user, a few snapshots and scripted services on which the callbacks
    can be run to the end. *)

Definition otp_sms : value := VList [VString "otp"; VString "sms"].

Definition alice : User :=
  {| u_DefaultProjectID := "";
     u_Description := "";
     u_DomainID := "default";
     u_Enabled := true;
     u_Extra := ∅;
     u_ID := "u1";
     u_Name := "alice";
     u_Options := <["multi_factor_auth_enabled" := VBool true]>
                    {[ "multi_factor_auth_rules" := VList [otp_sms] ]} |}.

(** The same user once the service holds no options for her. *)
Definition alice_plain : User :=
  {| u_DefaultProjectID := "";
     u_Description := "";
     u_DomainID := "default";
     u_Enabled := true;
     u_Extra := ∅;
     u_ID := "u1";
     u_Name := "alice";
     u_Options := ∅ |}.

Definition service : Meta unit :=
  scripted (inr "jp1") (inr alice) (inr alice) (inr alice) None.
Definition service_plain : Meta unit :=
  scripted (inr "jp1") (inr alice_plain) (inr alice_plain) (inr alice_plain) None.
Definition service_gone : Meta unit :=
  scripted (inr "jp1") (inr alice) (inl ErrDefault404) (inr alice) None.
Definition service_down : Meta unit :=
  scripted (inr "jp1") (inr alice) (inl (ErrMsg "timeout")) (inr alice) None.
Definition service_conflict : Meta unit :=
  scripted (inr "jp1") (inr alice) (inr alice) (inl (ErrMsg "conflict")) None.

(** A configuration to create: the flag [ignore_password_expiry] is set,
    to [false]. *)
Definition d_create : ResourceData :=
  {| rd_id := "";
     state := ∅;
     planned := list_to_map
       [ ("name", VString "alice");
         ("enabled", VBool true);
         ("password", VString "s3cret");
         ("ignore_password_expiry", VBool false);
         ("multi_factor_auth_enabled", VBool true);
         ("multi_factor_auth_rule", VList [mfaGroup otp_sms]) ];
     written := ∅ |}.

Definition create_sent : CreateOpts :=
  {| co_Name := "alice";
     co_DefaultProjectID := "";
     co_Description := "";
     co_DomainID := "";
     co_Enabled := Some true;
     co_Extra := ∅;
     co_Options := <[MultiFactorAuthEnabled := VBool true]>
                     {[ MultiFactorAuthRules := VList [otp_sms] ]};
     co_Password := "s3cret" |}.

(** A record that is known and unchanged. *)
Definition known : gmap string value :=
  list_to_map
    [ ("name", VString "alice");
      ("enabled", VBool true);
      ("description", VString "old");
      ("password", VString "s3cret");
      ("ignore_password_expiry", VBool true);
      ("multi_factor_auth_rule", VList [mfaGroup otp_sms]) ].

Definition d_known : ResourceData :=
  {| rd_id := "u1"; state := known; planned := known; written := ∅ |}.

(** The same record with a new description, and with a new password on
    top of that. *)
Definition d_described : ResourceData :=
  {| rd_id := "u1";
     state := known;
     planned := <["description" := VString "new"]> known;
     written := ∅ |}.


Definition described_sent : UpdateOpts :=
  set_uo_Options (Some ∅) (set_uo_Description "new" UpdateOpts0).

(** The same record with a second rule group, and with [enabled] turned
    off. *)
Definition d_ruled : ResourceData :=
  {| rd_id := "u1";
     state := known;
     planned := <["multi_factor_auth_rule" :=
                    VList [mfaGroup otp_sms; mfaGroup (VList [VString "totp"])]]>
                  known;
     written := ∅ |}.

Definition d_disabled : ResourceData :=
  {| rd_id := "u1";
     state := known;
     planned := <["enabled" := VBool false]> known;
     written := ∅ |}.

(** The fields Read writes (lines 177-202). *)
Definition Read_fields : list string :=
  [ "default_project_id"; "description"; "domain_id"; "enabled"; "extra";
    "name"; "region";
    "ignore_change_password_upon_first_use";
    "ignore_password_expiry";
    "ignore_lockout_failure_attempts";
    "multi_factor_auth_enabled";
    "multi_factor_auth_rule" ].

(** A user for whom the service holds something other than a boolean
    under a flag, and the service that returns her. *)
Definition alice_odd : User :=
  {| u_DefaultProjectID := "";
     u_Description := "";
     u_DomainID := "default";
     u_Enabled := true;
     u_Extra := ∅;
     u_ID := "u1";
     u_Name := "alice";
     u_Options := {[ "ignore_password_expiry" := VString "yes" ]} |}.

Definition service_odd : Meta unit :=
  scripted (inr "jp1") (inr alice_odd) (inr alice_odd) (inr alice_odd) None.
Definition service_unconfigured : Meta unit :=
  scripted (inl (ErrMsg "no endpoint")) (inr alice) (inr alice) (inr alice) None.
Definition service_full : Meta unit :=
  scripted (inr "jp1") (inl (ErrMsg "quota")) (inr alice) (inr alice)
           (Some (ErrMsg "forbidden")).

(** The known record with a flag turned off, with a new password, and with
    both a second rule group and a new description. *)
Definition d_relaxed : ResourceData :=
  {| rd_id := "u1";
     state := known;
     planned := <["ignore_password_expiry" := VBool false]> known;
     written := ∅ |}.

Definition relaxed_sent : UpdateOpts :=
  set_uo_Options (Some {[ IgnorePasswordExpiry := VBool false ]}) UpdateOpts0.

Definition d_rekeyed : ResourceData :=
  {| rd_id := "u1";
     state := known;
     planned := <["password" := VString "n3w"]> known;
     written := ∅ |}.

Definition d_ruled_described : ResourceData :=
  {| rd_id := "u1";
     state := known;
     planned := <["description" := VString "new"]>
                  (<["multi_factor_auth_rule" :=
                       VList [mfaGroup otp_sms;
                              mfaGroup (VList [VString "totp"])]]> known);
     written := ∅ |}.

Definition ruled_sent : UpdateOpts :=
  set_uo_Options
    (Some {[ MultiFactorAuthRules := VList [otp_sms; VList [VString "totp"]] ]})
    (set_uo_Description "new" UpdateOpts0).

(** A configuration for the user as the scripted service returns her. *)
Definition d_alice : ResourceData :=
  {| rd_id := "";
     state := ∅;
     planned := list_to_map
       [ ("name", VString "alice");
         ("enabled", VBool true);
         ("domain_id", VString "default");
         ("password", VString "s3cret") ];
     written := ∅ |}.

(** * Properties *)

Lemma BuildMFARules_from_app acc groups rs :
  Forall2 carries_rule groups rs →
  BuildMFARules_from acc groups = Ok (acc ++ (VList <$> rs)).
Proof.
  intros H. revert acc.
  induction H as [|g r groups rs Hg _ IH]; intros acc; simpl.
  - by rewrite app_nil_r.
  - destruct Hg as (m & Hgm & Hm). subst g. simpl.
    rewrite Hm, IH, <- app_assoc. done.
Qed.

Section Properties.
Context {R : Type} (meta : Meta R).

Implicit Types (st : St R) (d : ResourceData).

Lemma bind_ok {A B} (m : M R A) (f : A → M R B) st a st' :
  m st = (Ok a, st') → (m ≫= f) st = f a st'.
Proof. intros H. unfold mbind, M_bind. by rewrite H. Qed.

Lemma bind_err {A B} (m : M R A) (f : A → M R B) st e st' :
  m st = (Err e, st') → (m ≫= f) st = (Err e, st').
Proof. intros H. unfold mbind, M_bind. by rewrite H. Qed.

Lemma newClient_ok st c :
  identityV3Client meta (GetRegion meta (d st)) = inr c →
  newClient meta st = (Ok c, st).
Proof. intros H. unfold newClient, read, mbind, M_bind. by rewrite H. Qed.

Lemma newClient_err st e :
  identityV3Client meta (GetRegion meta (d st)) = inl e →
  newClient meta st
  = (Err (Errorf "Error creating ECL identity client: " e), st).
Proof. intros H. unfold newClient, read, mbind, M_bind. by rewrite H. Qed.

(** *** Well-typed snapshots *)

Lemma has_type_zero t : has_type t (zero t) = true.
Proof. by destruct t. Qed.

Lemma conforms_Get d key t :
  conforms d = true →
  schema_type Schema key = Some t →
  has_type t (Get d key) = true.
Proof.
  unfold conforms, level_ok. intros H Ht.
  apply andb_true_iff in H as [H Hw]. apply andb_true_iff in H as [_ Hp].
  apply bool_decide_eq_true in Hw, Hp.
  unfold Get, getRaw, zero_of. rewrite Ht.
  destruct (written d !! key) as [v|] eqn:Ev; simpl.
  - specialize (Hw _ _ Ev). unfold field_ok in Hw. by rewrite Ht in Hw.
  - destruct (planned d !! key) as [v|] eqn:Ep; simpl.
    + specialize (Hp _ _ Ep). unfold field_ok in Hp. by rewrite Ht in Hp.
    + apply has_type_zero.
Qed.

Lemma Get_bool d key :
  conforms d = true → schema_type Schema key = Some TypeBool →
  Get d key = VBool (the_bool (Get d key)).
Proof.
  intros H Ht. pose proof (conforms_Get _ _ _ H Ht) as Hv.
  by destruct (Get d key).
Qed.

Lemma Get_string d key :
  conforms d = true → schema_type Schema key = Some TypeString →
  Get d key = VString (the_string (Get d key)).
Proof.
  intros H Ht. pose proof (conforms_Get _ _ _ H Ht) as Hv.
  by destruct (Get d key).
Qed.

Lemma Get_map d key :
  conforms d = true → schema_type Schema key = Some TypeMap →
  Get d key = VMap (the_map (Get d key)).
Proof.
  intros H Ht. pose proof (conforms_Get _ _ _ H Ht) as Hv.
  by destruct (Get d key).
Qed.

Lemma Get_list d key :
  conforms d = true → schema_type Schema key = Some TypeList →
  Get d key = VList (the_list (Get d key))
  ∧ forallb is_rule_group (the_list (Get d key)) = true.
Proof.
  intros H Ht. pose proof (conforms_Get _ _ _ H Ht) as Hv.
  by destruct (Get d key).
Qed.

Lemma GetOk_Get d key :
  GetOk d key = (Get d key, negb (bool_decide (Get d key = zero_of key))).
Proof.
  unfold GetOk, Get. destruct (getRaw d key); simpl; [done|].
  by rewrite bool_decide_eq_true_2.
Qed.

Lemma GetOk_flag d ty option :
  conforms d = true → (ty, option) ∈ userOptions →
  GetOk d option = (VBool (the_bool (Get d option)), the_bool (Get d option)).
Proof.
  intros H Hin. rewrite GetOk_Get.
  assert (schema_type Schema option = Some TypeBool ∧ zero_of option = VBool false)
    as [Ht ->].
  { unfold userOptions in Hin.
    repeat (apply elem_of_cons in Hin as [[= _ ->]|Hin]; [by split|]).
    by apply elem_of_nil in Hin. }
  pose proof (conforms_Get _ _ _ H Ht) as Hv.
  destruct (Get d option) as [|b| | |]; try done. by destruct b.
Qed.

Lemma rule_groups_carry groups :
  forallb is_rule_group groups = true →
  ∃ rs, Forall2 carries_rule groups rs.
Proof.
  induction groups as [|g groups IH]; simpl.
  - intros _. exists []. constructor.
  - intros [Hg Hrest]%andb_true_iff. destruct (IH Hrest) as [rs Hrs].
    destruct g as [| | | |m]; try done. simpl in Hg.
    destruct (m !! "rule") as [[| | |l|]|] eqn:Hm; try done.
    exists (l :: rs). constructor; [|done]. by exists m.
Qed.

(** *** Read *)

Lemma Read_loop_ok options table st :
  flags_boolean options table →
  forRange (R:=R) table (Read_option options) tt st
  = (Ok tt, mkSt (mkResourceData (rd_id (d st)) (state (d st)) (planned (d st))
                    (flagWrites options table (written (d st))))
                 (remote st) (trace st)).
Proof.
  intros H. revert st.
  induction H as [|[ty option] table Hb _ IH]; intros [[id s p w] r tr]; simpl.
  - done.
  - unfold mbind, M_bind, Read_option. simpl in Hb.
    destruct (options !! option) as [v|] eqn:Hv.
    + destruct (Hb v eq_refl) as [b ->]. simpl. by rewrite IH.
    + simpl. by rewrite IH.
Qed.

Lemma Read_loop_inv options table st u st' :
  forRange (R:=R) table (Read_option options) tt st = (Ok u, st') →
  flags_boolean options table.
Proof.
  revert st. induction table as [|[ty option] table IH]; intros st; simpl.
  - intros _. constructor.
  - unfold mbind, M_bind, Read_option.
    destruct (options !! option) as [v|] eqn:Hv; simpl.
    + destruct v; simpl; try discriminate.
      intros H. constructor; [|by eapply IH].
      simpl. intros v. rewrite Hv. intros [= <-]. eauto.
    + intros H. constructor; [|by eapply IH].
      simpl. intros v. by rewrite Hv.
Qed.

Lemma flagWrites_other options table w key :
  key ∉ table.*2 → flagWrites options table w !! key = w !! key.
Proof.
  revert w. induction table as [|[ty option] table IH]; intros w Hk; simpl.
  - done.
  - rewrite fmap_cons, not_elem_of_cons in Hk. destruct Hk as [Hne Hk].
    rewrite IH by done. simpl in Hne.
    destruct (options !! option) as [[]|]; try done.
    by rewrite lookup_insert_ne.
Qed.

Lemma flagWrites_flag options table w key :
  key ∈ table.*2 →
  flagWrites options table w !! key
  = match options !! key with
    | Some (VBool b) => Some (VBool b)
    | _ => w !! key
    end.
Proof.
  revert w. induction table as [|[ty option] table IH]; intros w Hk; simpl.
  - by apply elem_of_nil in Hk.
  - destruct (decide (key ∈ table.*2)) as [Hin|Hout].
    + rewrite IH by done.
      destruct (options !! key) as [[]|] eqn:Hkey; try done;
        destruct (options !! option) as [[]|] eqn:Hopt; try done;
        destruct (decide (option = key)) as [->|Hne];
        first [congruence | by rewrite lookup_insert_ne | done].
    + rewrite fmap_cons, elem_of_cons in Hk. destruct Hk as [->|]; [|done].
      rewrite flagWrites_other by done. simpl.
      destruct (options !! option) as [[]|]; try done.
      by rewrite lookup_insert_eq.
Qed.

Lemma Read_fetched st c user r' :
  identityV3Client meta (GetRegion meta (d st)) = inr c →
  users_Get meta c (Id (d st)) (remote st) = (inr user, r') →
  flags_boolean (u_Options user) userOptions →
  resourceIdentityUserV3Read meta st
  = (Ok tt, mkSt (Read_result meta user (d st)) r'
                 (trace st ++ [Request (CallGet (Id (d st)));
                               Log "[DEBUG] Retrieved ECL user: %#v" (PUser user)])).
Proof.
  intros Hc Hget Hflags. unfold resourceIdentityUserV3Read.
  rewrite (bind_ok _ _ _ _ _ (newClient_ok _ _ Hc)).
  cbv beta iota zeta delta [mbind M_bind mret M_ret read update emit lift
    request log_Printf].
  rewrite Hget. cbv beta iota zeta delta [d remote trace].
  rewrite (Read_loop_ok _ _ _ Hflags).
  cbv beta iota zeta delta [d remote trace].
  unfold Read_result, Read_scalars.
  rewrite <- app_assoc. cbn [app].
  cbv beta iota zeta delta [written rd_id state planned Set_].
  destruct (u_Options user !! "multi_factor_auth_rules") as [[]|];
    reflexivity.
Qed.

Lemma Read_fetched_ok st c user r' :
  identityV3Client meta (GetRegion meta (d st)) = inr c →
  users_Get meta c (Id (d st)) (remote st) = (inr user, r') →
  (resourceIdentityUserV3Read meta st).1 = Ok tt →
  flags_boolean (u_Options user) userOptions.
Proof.
  intros Hc Hget. unfold resourceIdentityUserV3Read.
  rewrite (bind_ok _ _ _ _ _ (newClient_ok _ _ Hc)).
  cbv beta iota zeta delta [mbind M_bind mret M_ret read update emit lift
    request log_Printf].
  rewrite Hget. cbv beta iota zeta delta [d remote trace].
  match goal with
  | |- context [forRange ?t ?b ?u ?s] =>
      destruct (forRange t b u s) as [[u'| |] st'] eqn:Hloop
  end; try discriminate.
  intros _. by eapply Read_loop_inv.
Qed.

Lemma Read_result_flag user d0 ty option :
  (ty, option) ∈ userOptions →
  written (Read_result meta user d0) !! option
  = match u_Options user !! option with
    | Some (VBool b) => Some (VBool b)
    | _ => written d0 !! option
    end.
Proof.
  intros Hin. unfold Read_result.
  assert (option ∈ userOptions.*2) as Hk.
  { apply list_elem_of_fmap. by exists (ty, option). }
  assert (option ≠ "multi_factor_auth_rule" ∧ option ≠ "region"
          ∧ option ≠ "name" ∧ option ≠ "extra" ∧ option ≠ "enabled"
          ∧ option ≠ "domain_id" ∧ option ≠ "description"
          ∧ option ≠ "default_project_id") as (?&?&?&?&?&?&?&?).
  { unfold userOptions in Hin.
    repeat (apply elem_of_cons in Hin as [[= _ ->]|Hin]; [by repeat split|]).
    by apply elem_of_nil in Hin. }
  cbv zeta. cbn [written].
  assert (∀ w : gmap string value,
    match u_Options user !! "multi_factor_auth_rules" with
    | Some (VList v) => <["multi_factor_auth_rule" := VList (mfaGroup <$> v)]> w
    | _ => w
    end !! option = w !! option) as ->.
  { intros w. destruct (u_Options user !! "multi_factor_auth_rules") as [[]|];
      try done. by rewrite lookup_insert_ne. }
  rewrite flagWrites_flag by done.
  unfold Read_scalars, Set_; simpl.
  by rewrite !lookup_insert_ne.
Qed.

(** C6: when the service reports the user missing, Read gives the local
    record up (its ID is reset, which is how the framework is told to
    drop it) and returns without an error; any other failure of the fetch
    is returned as an error and leaves the snapshot as it was. *)
Theorem Read_missing_removes_record st c e r' :
  identityV3Client meta (GetRegion meta (d st)) = inr c →
  users_Get meta c (Id (d st)) (remote st) = (inl e, r') →
  (e = ErrDefault404 →
     (resourceIdentityUserV3Read meta st).1 = Ok tt
     ∧ d (resourceIdentityUserV3Read meta st).2 = SetId (d st) ""
     ∧ Id (d (resourceIdentityUserV3Read meta st).2) = "")
  ∧ (e ≠ ErrDefault404 →
     (∃ e', (resourceIdentityUserV3Read meta st).1 = Err e')
     ∧ d (resourceIdentityUserV3Read meta st).2 = d st).
Proof.
  intros Hc Hget. unfold resourceIdentityUserV3Read.
  rewrite (bind_ok _ _ _ _ _ (newClient_ok _ _ Hc)).
  cbv beta iota zeta delta [mbind M_bind mret M_ret read update emit lift
    request log_Printf].
  rewrite Hget. split.
  - intros ->. by simpl.
  - intros Hne. destruct e as [|msg]; [done|]. simpl. eauto.
Qed.

(** C10: on a Read that succeeds, each of the four option flags is written
    into the snapshot only if the returned options map has its key, and is
    then the boolean found there; a flag the map does not have keeps what
    the snapshot held for it before. *)
Theorem Read_flags_frame st c user r' ty option :
  identityV3Client meta (GetRegion meta (d st)) = inr c →
  users_Get meta c (Id (d st)) (remote st) = (inr user, r') →
  (resourceIdentityUserV3Read meta st).1 = Ok tt →
  (ty, option) ∈ userOptions →
  (u_Options user !! option = None →
     getRaw (d (resourceIdentityUserV3Read meta st).2) option
       = getRaw (d st) option
     ∧ Get (d (resourceIdentityUserV3Read meta st).2) option
       = Get (d st) option)
  ∧ (∀ v, u_Options user !! option = Some v →
     ∃ b, v = VBool b
          ∧ Get (d (resourceIdentityUserV3Read meta st).2) option = VBool b).
Proof.
  intros Hc Hget Hok Hin.
  pose proof (Read_fetched_ok _ _ _ _ Hc Hget Hok) as Hflags.
  rewrite (Read_fetched _ _ _ _ Hc Hget Hflags). cbn [snd d].
  pose proof (Read_result_flag user (d st) _ _ Hin) as Hw.
  split.
  - intros Hnone. rewrite Hnone in Hw.
    assert (getRaw (Read_result meta user (d st)) option = getRaw (d st) option)
      as Hraw by (unfold getRaw; by rewrite Hw).
    split; [done|]. unfold Get. by rewrite Hraw.
  - intros v Hv.
    assert (∃ b, v = VBool b) as [b ->].
    { unfold flags_boolean in Hflags. rewrite Forall_forall in Hflags.
      by apply (Hflags (ty, option)). }
    exists b. split; [done|]. rewrite Hv in Hw.
    unfold Get, getRaw. by rewrite Hw.
Qed.

(** C3, amended: on a Read that succeeds, if the returned options map has
    the MFA-rules key as a sequence, [multi_factor_auth_rule] is rewritten
    as one group per flattened entry, in order, each holding its entry
    under [rule]; if it has not, the field is not written at all and keeps
    what the snapshot held before, which need not be empty. *)
Theorem Read_mfa_rules st c user r' :
  identityV3Client meta (GetRegion meta (d st)) = inr c →
  users_Get meta c (Id (d st)) (remote st) = (inr user, r') →
  (resourceIdentityUserV3Read meta st).1 = Ok tt →
  (∀ entries,
     u_Options user !! "multi_factor_auth_rules" = Some (VList entries) →
     ∃ groups,
       Get (d (resourceIdentityUserV3Read meta st).2) "multi_factor_auth_rule"
         = VList groups
       ∧ length groups = length entries
       ∧ ∀ i v, entries !! i = Some v →
                groups !! i = Some (VMap {[ "rule" := v ]}))
  ∧ ((∀ entries,
       u_Options user !! "multi_factor_auth_rules" ≠ Some (VList entries)) →
     getRaw (d (resourceIdentityUserV3Read meta st).2) "multi_factor_auth_rule"
       = getRaw (d st) "multi_factor_auth_rule"
     ∧ Get (d (resourceIdentityUserV3Read meta st).2) "multi_factor_auth_rule"
       = Get (d st) "multi_factor_auth_rule").
Proof.
  intros Hc Hget Hok.
  pose proof (Read_fetched_ok _ _ _ _ Hc Hget Hok) as Hflags.
  rewrite (Read_fetched _ _ _ _ Hc Hget Hflags). cbn [snd d].
  split.
  - intros entries He. exists (mfaGroup <$> entries).
    split; [|split].
    + unfold Get, getRaw, Read_result. cbn [written]. rewrite He.
      by rewrite lookup_insert_eq.
    + by rewrite length_fmap.
    + intros i v Hi. by rewrite list_lookup_fmap, Hi.
  - intros Hno.
    assert (getRaw (Read_result meta user (d st)) "multi_factor_auth_rule"
            = getRaw (d st) "multi_factor_auth_rule") as Hraw.
    { unfold getRaw, Read_result. cbn [written].
      assert (written (d st) !! "multi_factor_auth_rule"
              = flagWrites (u_Options user) userOptions
                  (written (Set_ (Read_scalars user (d st)) "region"
                     (VString (GetRegion meta (Read_scalars user (d st))))))
                !! "multi_factor_auth_rule") as Hw.
      { rewrite flagWrites_other.
        - unfold Read_scalars, Set_; simpl. by rewrite !lookup_insert_ne.
        - unfold userOptions. simpl. intros Hin.
          repeat (apply elem_of_cons in Hin as [?|Hin]; [done|]).
          by apply elem_of_nil in Hin. }
      destruct (u_Options user !! "multi_factor_auth_rules") as [[| | |l|]|]
        eqn:Ho; try (by rewrite <- Hw).
      by destruct (Hno l). }
    split; [done|]. unfold Get. by rewrite Hraw.
Qed.

Lemma Read_loop_trace options table st :
  trace (forRange (R:=R) table (Read_option options) tt st).2 = trace st.
Proof.
  revert st. induction table as [|[ty option] table IH]; intros st; simpl.
  - done.
  - unfold mbind, M_bind, Read_option.
    destruct (options !! option) as [[]|]; simpl; try done; by rewrite IH.
Qed.

Lemma Read_trace st :
  ∃ extra,
    trace (resourceIdentityUserV3Read meta st).2 = trace st ++ extra
    ∧ Read_events extra.
Proof.
  unfold resourceIdentityUserV3Read.
  destruct (identityV3Client meta (GetRegion meta (d st))) as [e|c] eqn:Hc.
  - rewrite (bind_err _ _ _ _ _ (newClient_err _ _ Hc)). exists []. simpl.
    rewrite app_nil_r. split; [done|]. by intros e' ?%elem_of_nil.
  - rewrite (bind_ok _ _ _ _ _ (newClient_ok _ _ Hc)).
    cbv beta iota zeta delta [mbind M_bind mret M_ret read update emit lift
      request log_Printf].
    destruct (users_Get meta c (Id (d st)) (remote st)) as [[e|user] r'].
    + exists [Request (CallGet (Id (d st)))]. split.
      * by destruct e.
      * intros e' ->%list_elem_of_singleton. left. eauto.
    + exists [Request (CallGet (Id (d st)));
              Log "[DEBUG] Retrieved ECL user: %#v" (PUser user)].
      split.
      * cbv beta iota zeta delta [d remote trace].
        match goal with
        | |- context [forRange ?t ?b ?u ?s] =>
            pose proof (Read_loop_trace (u_Options user) t s) as Ht;
            destruct (forRange t b u s) as [[u'| |] st']
        end; simpl in Ht |- *; rewrite <- ?app_assoc in Ht; try done.
        by destruct (u_Options user !! "multi_factor_auth_rules") as [[]|].
      * intros e' [->|[->|[]%elem_of_nil]%elem_of_cons]%elem_of_cons; eauto.
Qed.

(** *** Create *)

Lemma getBool_ok st key :
  conforms (d st) = true → schema_type Schema key = Some TypeBool →
  getBool key st = (Ok (the_bool (Get (d st) key)), st).
Proof.
  intros H Ht. unfold getBool, read, lift, compose, mbind, M_bind.
  by rewrite (Get_bool _ _ H Ht).
Qed.

Lemma getString_ok st key :
  conforms (d st) = true → schema_type Schema key = Some TypeString →
  getString key st = (Ok (the_string (Get (d st) key)), st).
Proof.
  intros H Ht. unfold getString, read, lift, compose, mbind, M_bind.
  by rewrite (Get_string _ _ H Ht).
Qed.

Lemma getMap_ok st key :
  conforms (d st) = true → schema_type Schema key = Some TypeMap →
  getMap key st = (Ok (the_map (Get (d st) key)), st).
Proof.
  intros H Ht. unfold getMap, read, lift, compose, mbind, M_bind.
  by rewrite (Get_map _ _ H Ht).
Qed.

Lemma getList_ok st key :
  conforms (d st) = true → schema_type Schema key = Some TypeList →
  getList key st = (Ok (the_list (Get (d st) key)), st).
Proof.
  intros H Ht. unfold getList, read, lift, compose, mbind, M_bind.
  by rewrite (proj1 (Get_list _ _ H Ht)).
Qed.

Lemma the_rules_ok d :
  conforms d = true →
  resourceIdentityUserV3BuildMFARules (the_list (Get d "multi_factor_auth_rule"))
  = Ok (the_rules d).
Proof.
  intros H. unfold the_rules.
  destruct (Get_list d "multi_factor_auth_rule" H eq_refl) as [_ Hg].
  destruct (rule_groups_carry _ Hg) as [rs Hrs].
  unfold resourceIdentityUserV3BuildMFARules.
  by rewrite (BuildMFARules_from_app [] _ rs Hrs).
Qed.

Lemma Create_loop_ok table st options :
  conforms (d st) = true → table ⊆ userOptions →
  forRange (R:=R) table Create_option options st
  = (Ok (Create_flags (d st) table options), st).
Proof.
  intros H. revert options.
  induction table as [|[ty option] table IH]; intros options Hsub; simpl.
  - done.
  - assert ((ty, option) ∈ userOptions) as Hin by (apply Hsub; by left).
    unfold mbind, M_bind, Create_option, read, lift.
    rewrite (GetOk_flag _ _ _ H Hin).
    destruct (the_bool (Get (d st) option)); simpl;
      (rewrite IH; [done|]); intros x Hx; apply Hsub; by right.
Qed.

Lemma Create_run st c :
  conforms (d st) = true →
  identityV3Client meta (GetRegion meta (d st)) = inr c →
  resourceIdentityUserV3Create meta st
  = let logged_opts := Create_opts (d st) in
    let createOpts :=
      set_co_Password (the_string (Get (d st) "password")) logged_opts in
    let tr := trace st ++ [Log "[DEBUG] Create Options: %#v" (PCreateOpts logged_opts);
                           Request (CallCreate createOpts)] in
    match users_Create meta c createOpts (remote st) with
    | (inl err, r') =>
        (Err (Errorf "Error creating ECL user: " err), mkSt (d st) r' tr)
    | (inr user, r') =>
        resourceIdentityUserV3Read meta (mkSt (SetId (d st) (u_ID user)) r' tr)
    end.
Proof.
  intros H Hc. unfold resourceIdentityUserV3Create.
  rewrite (bind_ok _ _ _ _ _ (newClient_ok _ _ Hc)).
  rewrite (bind_ok _ _ _ _ _ (getBool_ok st "enabled" H eq_refl)).
  rewrite (bind_ok _ _ _ _ _ (getString_ok st "default_project_id" H eq_refl)).
  rewrite (bind_ok _ _ _ _ _ (getString_ok st "description" H eq_refl)).
  rewrite (bind_ok _ _ _ _ _ (getString_ok st "domain_id" H eq_refl)).
  rewrite (bind_ok _ _ _ _ _ (getMap_ok st "extra" H eq_refl)).
  rewrite (bind_ok _ _ _ _ _ (getString_ok st "name" H eq_refl)).
  rewrite (bind_ok _ _ _ _ _
             (Create_loop_ok userOptions st ∅ H (reflexivity _))).
  rewrite (bind_ok _ _ _ _ _ (getList_ok st "multi_factor_auth_rule" H eq_refl)).
  erewrite bind_ok
    by (unfold lift; rewrite (the_rules_ok _ H); reflexivity).
  cbv zeta.
  unfold log_Printf, emit.
  erewrite bind_ok by reflexivity.
  erewrite bind_ok
    by (apply (getString_ok (mkSt _ _ _) "password"); [exact H|reflexivity]).
  unfold request, update, fail, lift, mbind, M_bind. cbn [d remote trace].
  unfold Create_opts, with_rules.
  destruct (users_Create meta c _ (remote st)) as [[err|user] r'].
  - by rewrite <- app_assoc.
  - by rewrite <- app_assoc.
Qed.

(** *** Update *)

Lemma ifChanged_string st key set h o :
  conforms (d st) = true → schema_type Schema key = Some TypeString →
  ifChanged key (h, o) (v ← getString key; mret (true, set v o)) st
  = (Ok (changed_field (d st) key the_string set (h, o)), st).
Proof.
  intros H Ht. unfold ifChanged, changed_field, read.
  unfold mbind at 1, M_bind at 1.
  destruct (HasChange (d st) key); [|done].
  by rewrite (bind_ok _ _ _ _ _ (getString_ok st key H Ht)).
Qed.

Lemma ifChanged_bool st key h o :
  conforms (d st) = true → schema_type Schema key = Some TypeBool →
  ifChanged key (h, o)
    (enabled ← getBool key; mret (true, set_uo_Enabled (Some enabled) o)) st
  = (Ok (changed_field (d st) key (λ v, Some (the_bool v)) set_uo_Enabled (h, o)),
     st).
Proof.
  intros H Ht. unfold ifChanged, changed_field, read.
  unfold mbind at 1, M_bind at 1.
  destruct (HasChange (d st) key); [|done].
  by rewrite (bind_ok _ _ _ _ _ (getBool_ok st key H Ht)).
Qed.

Lemma ifChanged_map st key h o :
  conforms (d st) = true → schema_type Schema key = Some TypeMap →
  ifChanged key (h, o)
    (v ← getMap key; mret (true, set_uo_Extra (Some v) o)) st
  = (Ok (changed_field (d st) key (λ v, Some (the_map v)) set_uo_Extra (h, o)),
     st).
Proof.
  intros H Ht. unfold ifChanged, changed_field, read.
  unfold mbind at 1, M_bind at 1.
  destruct (HasChange (d st) key); [|done].
  by rewrite (bind_ok _ _ _ _ _ (getMap_ok st key H Ht)).
Qed.

Lemma Update_loop_ok table st acc :
  conforms (d st) = true → table ⊆ userOptions →
  forRange (R:=R) table Update_option acc st
  = (Ok (Update_flags (d st) table acc), st).
Proof.
  intros H. revert acc.
  induction table as [|[ty option] table IH]; intros [h options] Hsub; simpl.
  - done.
  - assert ((ty, option) ∈ userOptions) as Hin by (apply Hsub; by left).
    assert (schema_type Schema option = Some TypeBool) as Ht.
    { unfold userOptions in Hin.
      repeat (apply elem_of_cons in Hin as [[= _ ->]|Hin]; [done|]).
      by apply elem_of_nil in Hin. }
    assert (table ⊆ userOptions) as Hrest
      by (intros x Hx; apply Hsub; by right).
    unfold ifChanged, read. unfold mbind at 1 2, M_bind at 1 2.
    destruct (HasChange (d st) option).
    + rewrite (bind_ok _ _ _ _ _ (getBool_ok st option H Ht)).
      unfold mret, M_ret. by rewrite IH.
    + unfold mret, M_ret. by rewrite IH.
Qed.

Lemma ifChanged_rules st options :
  conforms (d st) = true →
  ifChanged "multi_factor_auth_rule" options
    (rules ← getList "multi_factor_auth_rule";
     mfaRules ← lift (resourceIdentityUserV3BuildMFARules rules);
     mret (if 0 <? length mfaRules
           then <[MultiFactorAuthRules := VList mfaRules]> options
           else options)) st
  = (Ok (if HasChange (d st) "multi_factor_auth_rule"
         then with_rules (the_rules (d st)) options else options), st).
Proof.
  intros H. unfold ifChanged, read.
  unfold mbind at 1, M_bind at 1.
  destruct (HasChange (d st) "multi_factor_auth_rule"); [|done].
  rewrite (bind_ok _ _ _ _ _ (getList_ok st "multi_factor_auth_rule" H eq_refl)).
  erewrite bind_ok
    by (unfold lift; rewrite (the_rules_ok _ H); reflexivity).
  done.
Qed.

Lemma Update_run st c :
  conforms (d st) = true →
  identityV3Client meta (GetRegion meta (d st)) = inr c →
  resourceIdentityUserV3Update meta st
  = let plan := Update_plan (d st) in
    let final := Update_final (d st) in
    let tr :=
      trace st ++
      (if plan.1
       then [Log "[DEBUG] Update Options: %#v" (PUpdateOpts plan.2)]
       else []) in
    if final.1 then
      let call := Request (CallUpdate (Id (d st)) final.2) in
      match users_Update meta c (Id (d st)) final.2 (remote st) with
      | (inl err, r') =>
          (Err (Errorf "Error updating ECL user: " err),
           mkSt (d st) r' (tr ++ [call]))
      | (inr _, r') =>
          resourceIdentityUserV3Read meta (mkSt (d st) r' (tr ++ [call]))
      end
    else resourceIdentityUserV3Read meta (mkSt (d st) (remote st) tr).
Proof.
  intros H Hc. unfold resourceIdentityUserV3Update.
  rewrite (bind_ok _ _ _ _ _ (newClient_ok _ _ Hc)). cbv zeta.
  unfold Update_final, Update_plan. cbv zeta.
  rewrite (bind_ok _ _ _ _ _
    (ifChanged_string st "default_project_id" _ _ _ H eq_refl)).
  destruct (changed_field (d st) "default_project_id" _ _ _) as [h1 o1].
  rewrite (bind_ok _ _ _ _ _ (ifChanged_string st "description" _ _ _ H eq_refl)).
  destruct (changed_field (d st) "description" _ _ _) as [h2 o2].
  rewrite (bind_ok _ _ _ _ _ (ifChanged_string st "domain_id" _ _ _ H eq_refl)).
  destruct (changed_field (d st) "domain_id" _ _ _) as [h3 o3].
  rewrite (bind_ok _ _ _ _ _ (ifChanged_bool st "enabled" _ _ H eq_refl)).
  destruct (changed_field (d st) "enabled" _ _ _) as [h4 o4].
  rewrite (bind_ok _ _ _ _ _ (ifChanged_map st "extra" _ _ H eq_refl)).
  destruct (changed_field (d st) "extra" _ _ _) as [h5 o5].
  rewrite (bind_ok _ _ _ _ _ (ifChanged_string st "name" _ _ _ H eq_refl)).
  destruct (changed_field (d st) "name" _ _ _) as [h6 o6].
  rewrite (bind_ok _ _ _ _ _
    (Update_loop_ok userOptions st _ H (reflexivity _))).
  cbn [fst snd].
  destruct (Update_flags (d st) userOptions (h6, ∅)) as [h7 options].
  rewrite (bind_ok _ _ _ _ _ (ifChanged_rules st _ H)).
  cbn [fst snd].
  set (options' := if HasChange (d st) "multi_factor_auth_rule"
                   then with_rules (the_rules (d st)) options else options).
  set (updateOpts := set_uo_Options (Some options') o6).
  assert ((if h7 then log_Printf "[DEBUG] Update Options: %#v" (PUpdateOpts updateOpts)
           else mret tt) st
          = (Ok tt, mkSt (d st) (remote st)
               (trace st ++ if h7 then [Log "[DEBUG] Update Options: %#v"
                                          (PUpdateOpts updateOpts)] else [])))
    as Hlog.
  { destruct h7; [done|]. unfold mret, M_ret. rewrite app_nil_r. by destruct st. }
  rewrite (bind_ok _ _ _ _ _ Hlog).
  erewrite bind_ok
    by (apply (ifChanged_string (mkSt _ _ _) "password"); [exact H|reflexivity]).
  cbn [d].
  destruct (changed_field (d st) "password" _ _ _) as [h8 o8].
  cbn [fst snd].
  destruct h8.
  - unfold request, read, fail, lift, mbind, M_bind, mret, M_ret.
    cbn [d remote trace].
    by destruct (users_Update meta c _ o8 (remote st)) as [[err|user] r'].
  - by unfold mbind, M_bind, mret, M_ret.
Qed.

(** *** The traces of Create and Update *)

Lemma requests_app tr1 tr2 : requests (tr1 ++ tr2) = requests tr1 ++ requests tr2.
Proof. apply omap_app. Qed.

Lemma logged_app tr1 tr2 : logged (tr1 ++ tr2) = logged tr1 ++ logged tr2.
Proof. apply omap_app. Qed.

Lemma Create_trace d0 r c :
  conforms d0 = true →
  identityV3Client meta (GetRegion meta d0) = inr c →
  ∃ extra,
    trace (run (resourceIdentityUserV3Create meta) d0 r).2
    = Log "[DEBUG] Create Options: %#v" (PCreateOpts (Create_opts d0))
      :: Request (CallCreate
           (set_co_Password (the_string (Get d0 "password")) (Create_opts d0)))
      :: extra
    ∧ Read_events extra.
Proof.
  intros H Hc. unfold run. rewrite (Create_run _ c) by done.
  cbn [d remote trace app]. cbv zeta.
  destruct (users_Create meta c _ r) as [[err|user] r'].
  - exists []. split; [done|]. by intros e ?%elem_of_nil.
  - destruct (Read_trace (mkSt (SetId d0 (u_ID user)) r'
      [Log "[DEBUG] Create Options: %#v" (PCreateOpts (Create_opts d0));
       Request (CallCreate
         (set_co_Password (the_string (Get d0 "password")) (Create_opts d0)))]))
      as (extra & Ht & He).
    exists extra. by rewrite Ht.
Qed.

Lemma Update_trace d0 r c :
  conforms d0 = true →
  identityV3Client meta (GetRegion meta d0) = inr c →
  ∃ extra,
    trace (run (resourceIdentityUserV3Update meta) d0 r).2
    = (if (Update_plan d0).1
       then [Log "[DEBUG] Update Options: %#v" (PUpdateOpts (Update_plan d0).2)]
       else [])
      ++ (if (Update_final d0).1
          then [Request (CallUpdate (Id d0) (Update_final d0).2)]
          else [])
      ++ extra
    ∧ Read_events extra.
Proof.
  intros H Hc. unfold run. rewrite (Update_run _ c) by done.
  cbn [d remote trace app]. cbv zeta.
  destruct (Update_final d0).1.
  - destruct (users_Update meta c _ _ r) as [[err|user] r'].
    + exists []. cbn [snd trace]. split; [done|]. by intros e ?%elem_of_nil.
    + match goal with
      | |- context [resourceIdentityUserV3Read meta ?s] =>
          destruct (Read_trace s) as (extra & Ht & He)
      end.
      exists extra. rewrite Ht. cbn [trace]. by rewrite <- app_assoc.
  - match goal with
    | |- context [resourceIdentityUserV3Read meta ?s] =>
        destruct (Read_trace s) as (extra & Ht & He)
    end.
    exists extra. rewrite Ht. by cbn [trace app].
Qed.

Lemma Read_events_requests extra c :
  Read_events extra → c ∈ requests extra → ∃ id, c = CallGet id.
Proof.
  intros He (e & Hin & Hc)%list_elem_of_omap.
  destruct (He e Hin) as [[id ->]|[u ->]]; simplify_eq; eauto.
Qed.

Lemma Read_events_logged extra f a :
  Read_events extra → (f, a) ∈ logged extra → ∃ u, a = PUser u.
Proof.
  intros He (e & Hin & Hc)%list_elem_of_omap.
  destruct (He e Hin) as [[id ->]|[u ->]]; simplify_eq; eauto.
Qed.

(** *** The options Create sends *)

Lemma with_rules_flag mfaRules options ty :
  ty ≠ MultiFactorAuthRules →
  with_rules mfaRules options !! ty = options !! ty.
Proof.
  intros Hne. unfold with_rules.
  destruct (0 <? length mfaRules); [|done]. by rewrite lookup_insert_ne.
Qed.

Lemma Create_flags_lookup d0 ty option :
  conforms d0 = true → (ty, option) ∈ userOptions →
  Create_flags d0 userOptions ∅ !! ty
  = if the_bool (Get d0 option) then Some (VBool true) else None.
Proof.
  intros H Hin. unfold userOptions in *. cbn [Create_flags].
  rewrite (GetOk_flag d0 IgnoreChangePasswordUponFirstUse
             "ignore_change_password_upon_first_use" H)
    by (unfold userOptions; set_unfold; tauto).
  rewrite (GetOk_flag d0 IgnorePasswordExpiry "ignore_password_expiry" H)
    by (unfold userOptions; set_unfold; tauto).
  rewrite (GetOk_flag d0 IgnoreLockoutFailureAttempts
             "ignore_lockout_failure_attempts" H)
    by (unfold userOptions; set_unfold; tauto).
  rewrite (GetOk_flag d0 MultiFactorAuthEnabled "multi_factor_auth_enabled" H)
    by (unfold userOptions; set_unfold; tauto).
  repeat (apply elem_of_cons in Hin as [[= -> ->]|Hin]);
    [..|by apply elem_of_nil in Hin];
    destruct (the_bool (Get d0 "ignore_change_password_upon_first_use")),
             (the_bool (Get d0 "ignore_password_expiry")),
             (the_bool (Get d0 "ignore_lockout_failure_attempts")),
             (the_bool (Get d0 "multi_factor_auth_enabled"));
    reflexivity.
Qed.

(** C1, amended: Create puts a flag into the options map exactly when the
    snapshot holds [true] for it, and then with the value [true].  The
    test is [GetOk], which answers no both for an absent flag and for one
    set to [false]: neither is sent. *)
Theorem Create_option_flags d0 r c ty option :
  conforms d0 = true →
  identityV3Client meta (GetRegion meta d0) = inr c →
  (ty, option) ∈ userOptions →
  ∃ createOpts rest,
    requests (trace (run (resourceIdentityUserV3Create meta) d0 r).2)
      = CallCreate createOpts :: rest
    ∧ (Get d0 option = VBool true →
         co_Options createOpts !! ty = Some (VBool true))
    ∧ (Get d0 option ≠ VBool true → co_Options createOpts !! ty = None)
    ∧ (getRaw d0 option = None → co_Options createOpts !! ty = None)
    ∧ (getRaw d0 option = Some (VBool false) →
         co_Options createOpts !! ty = None).
Proof.
  intros H Hc Hin.
  destruct (Create_trace d0 r c H Hc) as (extra & Ht & _).
  eexists _, (requests extra). rewrite Ht. split; [done|].
  assert (ty ≠ MultiFactorAuthRules) as Hty.
  { unfold userOptions in Hin.
    repeat (apply elem_of_cons in Hin as [[= -> _]|Hin]; [done|]).
    by apply elem_of_nil in Hin. }
  assert (schema_type Schema option = Some TypeBool ∧ zero_of option = VBool false)
    as [Hs Hz].
  { unfold userOptions in Hin.
    repeat (apply elem_of_cons in Hin as [[= _ ->]|Hin]; [by split|]).
    by apply elem_of_nil in Hin. }
  cbn [set_co_Password Create_opts co_Options].
  rewrite with_rules_flag, (Create_flags_lookup _ _ _ H Hin) by done.
  pose proof (Get_bool _ _ H Hs) as Hb.
  split; [|split; [|split]].
  - intros Ht'. by rewrite Ht'.
  - intros Hn. destruct (the_bool (Get d0 option)); [|done]. by destruct Hn.
  - intros Hraw. unfold Get. by rewrite Hraw, Hz.
  - intros Hraw. unfold Get. by rewrite Hraw.
Qed.

(** *** What Update decides *)

Lemma changed_field_fst {A} d0 key (get : value → A) set acc :
  (changed_field d0 key get set acc).1 = HasChange d0 key || acc.1.
Proof. unfold changed_field. by destruct (HasChange d0 key). Qed.

Lemma changed_field_proj {A B} (proj : UpdateOpts → B) d0 key
    (get : value → A) set acc :
  (∀ v o, proj (set v o) = proj o) →
  proj (changed_field d0 key get set acc).2 = proj acc.2.
Proof.
  intros Hs. unfold changed_field.
  destruct (HasChange d0 key); [apply Hs|done].
Qed.

Lemma Update_flags_fst d0 table acc :
  (Update_flags d0 table acc).1
  = existsb (λ e, HasChange d0 e.2) table || acc.1.
Proof.
  revert acc. induction table as [|[ty option] table IH]; intros acc; simpl.
  - done.
  - rewrite IH. destruct (HasChange d0 option); simpl; [|done].
    by rewrite !orb_true_r.
Qed.

Lemma Update_final_fst d0 :
  (Update_final d0).1 = existsb (HasChange d0) tracked.
Proof.
  unfold Update_final, Update_plan. cbv zeta.
  rewrite changed_field_fst. cbn [fst snd].
  rewrite Update_flags_fst. cbn [fst snd].
  rewrite !changed_field_fst. cbn [fst snd existsb userOptions tracked].
  by rewrite ?orb_false_r, <- ?orb_assoc.
Qed.

Lemma Update_plan_fst d0 :
  (Update_plan d0).1 = existsb (HasChange d0) (tail tracked).
Proof.
  unfold Update_plan. cbv zeta. cbn [fst snd].
  rewrite Update_flags_fst. cbn [fst snd].
  rewrite !changed_field_fst. cbn [fst snd existsb userOptions tracked tail].
  by rewrite ?orb_false_r, <- ?orb_assoc.
Qed.

Lemma Update_final_changed d0 :
  (Update_final d0).1 = true ↔ ∃ key, key ∈ tracked ∧ HasChange d0 key = true.
Proof.
  rewrite Update_final_fst. split.
  - intros (key & Hin & Hk)%existsb_exists. exists key.
    by rewrite list_elem_of_In.
  - intros (key & Hin & Hk). apply existsb_exists. exists key.
    by rewrite <- list_elem_of_In.
Qed.

Lemma Update_final_unchanged d0 :
  (∀ key, key ∈ tracked → HasChange d0 key = false) →
  (Update_final d0).1 = false ∧ (Update_plan d0).1 = false.
Proof.
  intros Hno. rewrite Update_final_fst, Update_plan_fst.
  unfold tracked in *. cbn [existsb tail].
  rewrite !Hno by (set_unfold; tauto). done.
Qed.

Lemma Update_plan_Password d0 : uo_Password (Update_plan d0).2 = "".
Proof.
  unfold Update_plan. cbv zeta. cbn [fst snd set_uo_Options uo_Password].
  by rewrite !(changed_field_proj uo_Password).
Qed.


Lemma Update_final_Enabled d0 :
  HasChange d0 "enabled" = true →
  uo_Enabled (Update_final d0).2 = Some (the_bool (Get d0 "enabled")).
Proof.
  intros He. unfold Update_final.
  rewrite (changed_field_proj uo_Enabled) by done.
  unfold Update_plan. cbv zeta. cbn [fst snd set_uo_Options uo_Enabled].
  rewrite !(changed_field_proj uo_Enabled) by done.
  unfold changed_field at 1. by rewrite He.
Qed.

Lemma Update_final_description_only d0 :
  HasChange d0 "description" = true →
  (∀ key, key ∈ "multi_factor_auth_rule" :: tracked →
          key ≠ "description" → HasChange d0 key = false) →
  Update_final d0
  = (true, set_uo_Options (Some ∅)
             (set_uo_Description (the_string (Get d0 "description")) UpdateOpts0)).
Proof.
  intros Hd Hno. unfold tracked in Hno.
  unfold Update_final, Update_plan, changed_field, userOptions.
  cbn [Update_flags]. cbv zeta.
  rewrite Hd. rewrite !Hno by (first [done | set_unfold; tauto]).
  reflexivity.
Qed.

Lemma Create_requests d0 r c :
  conforms d0 = true →
  identityV3Client meta (GetRegion meta d0) = inr c →
  ∃ rest,
    requests (trace (run (resourceIdentityUserV3Create meta) d0 r).2)
    = CallCreate (set_co_Password (the_string (Get d0 "password"))
                    (Create_opts d0)) :: rest
    ∧ ∀ c', c' ∈ rest → ∃ id, c' = CallGet id.
Proof.
  intros H Hc. destruct (Create_trace d0 r c H Hc) as (extra & -> & He).
  exists (requests extra). split; [done|].
  intros c'. by apply Read_events_requests.
Qed.

Lemma Update_requests d0 r c :
  conforms d0 = true →
  identityV3Client meta (GetRegion meta d0) = inr c →
  ∃ rest,
    requests (trace (run (resourceIdentityUserV3Update meta) d0 r).2)
    = (if (Update_final d0).1
       then [CallUpdate (Id d0) (Update_final d0).2] else []) ++ rest
    ∧ ∀ c', c' ∈ rest → ∃ id, c' = CallGet id.
Proof.
  intros H Hc. destruct (Update_trace d0 r c H Hc) as (extra & -> & He).
  exists (requests extra). split.
  - rewrite !requests_app.
    by destruct (Update_plan d0).1, (Update_final d0).1.
  - intros c'. by apply Read_events_requests.
Qed.

(** C9: when [description] is the one field that changed, the request
    Update sends carries the new description and nothing else: every other
    field of the payload has its zero value and the options map is
    empty. *)
Theorem Update_description_only d0 r c :
  conforms d0 = true →
  identityV3Client meta (GetRegion meta d0) = inr c →
  HasChange d0 "description" = true →
  (∀ key, key ∈ "multi_factor_auth_rule" :: tracked →
          key ≠ "description" → HasChange d0 key = false) →
  ∃ new rest,
    Get d0 "description" = VString new
    ∧ requests (trace (run (resourceIdentityUserV3Update meta) d0 r).2)
      = CallUpdate (Id d0)
          {| uo_Name := ""; uo_DefaultProjectID := "";
             uo_Description := new; uo_DomainID := "";
             uo_Enabled := None; uo_Extra := None;
             uo_Options := Some ∅; uo_Password := "" |} :: rest
    ∧ ∀ c', c' ∈ rest → ∃ id, c' = CallGet id.
Proof.
  intros H Hc Hd Hno.
  destruct (Update_requests d0 r c H Hc) as (rest & Hr & Hrest).
  rewrite (Update_final_description_only d0 Hd Hno) in Hr.
  exists (the_string (Get d0 "description")), rest.
  split; [by apply Get_string|]. by split.
Qed.

(** C7: [enabled] is sent as an explicit boolean.  The request of Create
    always carries the snapshot's value of [enabled]; the request of an
    Update in which [enabled] changed carries it as well. *)
Theorem enabled_always_explicit d0 r c :
  conforms d0 = true →
  identityV3Client meta (GetRegion meta d0) = inr c →
  ∃ b,
    Get d0 "enabled" = VBool b
    ∧ (∃ createOpts rest,
         requests (trace (run (resourceIdentityUserV3Create meta) d0 r).2)
           = CallCreate createOpts :: rest
         ∧ co_Enabled createOpts = Some b
         ∧ ∀ c', c' ∈ rest → ∃ id, c' = CallGet id)
    ∧ (HasChange d0 "enabled" = true →
       ∃ updateOpts rest,
         requests (trace (run (resourceIdentityUserV3Update meta) d0 r).2)
           = CallUpdate (Id d0) updateOpts :: rest
         ∧ uo_Enabled updateOpts = Some b
         ∧ ∀ c', c' ∈ rest → ∃ id, c' = CallGet id).
Proof.
  intros H Hc. exists (the_bool (Get d0 "enabled")).
  split; [by apply Get_bool|]. split.
  - destruct (Create_requests d0 r c H Hc) as (rest & Hr & Hrest).
    eexists _, rest. by split.
  - intros He.
    destruct (Update_requests d0 r c H Hc) as (rest & Hr & Hrest).
    assert ((Update_final d0).1 = true) as Hf.
    { apply Update_final_changed. exists "enabled". split; [|done].
      unfold tracked. set_unfold; tauto. }
    rewrite Hf in Hr. eexists _, rest. split; [exact Hr|].
    split; [by apply Update_final_Enabled|done].
Qed.

(** C4, amended: Update sends a request when one of [default_project_id],
    [description], [domain_id], [enabled], [extra], [name], [password] or
    the four option flags has changed, and then goes on to Read only if
    the request succeeded: a request that fails ends Update with that
    error.  When no tracked field has changed, the rule list included,
    Update sends nothing and is exactly a Read. *)
Theorem Update_request_then_Read d0 r c :
  conforms d0 = true →
  identityV3Client meta (GetRegion meta d0) = inr c →
  ((∃ key, key ∈ tracked ∧ HasChange d0 key = true) →
     ∃ updateOpts pre,
       requests pre = []
       ∧ match users_Update meta c (Id d0) updateOpts r with
         | (inl err, r') =>
             run (resourceIdentityUserV3Update meta) d0 r
             = (Err (Errorf "Error updating ECL user: " err),
                mkSt d0 r' (pre ++ [Request (CallUpdate (Id d0) updateOpts)]))
         | (inr _, r') =>
             run (resourceIdentityUserV3Update meta) d0 r
             = resourceIdentityUserV3Read meta
                 (mkSt d0 r' (pre ++ [Request (CallUpdate (Id d0) updateOpts)]))
         end)
  ∧ ((∀ key, key ∈ "multi_factor_auth_rule" :: tracked →
             HasChange d0 key = false) →
     run (resourceIdentityUserV3Update meta) d0 r
     = run (resourceIdentityUserV3Read meta) d0 r).
Proof.
  intros H Hc. split.
  - intros Hch%Update_final_changed.
    exists (Update_final d0).2,
      (if (Update_plan d0).1
       then [Log "[DEBUG] Update Options: %#v" (PUpdateOpts (Update_plan d0).2)]
       else []).
    split; [by destruct (Update_plan d0).1|].
    unfold run. rewrite (Update_run _ c) by done.
    cbn [d remote trace app]. cbv zeta. rewrite Hch.
    by destruct (users_Update meta c _ _ r) as [[err|user] r'].
  - intros Hno.
    destruct (Update_final_unchanged d0) as [Hf Hp].
    { intros key Hk. apply Hno. by right. }
    unfold run. rewrite (Update_run _ c) by done.
    cbn [d remote trace app]. cbv zeta. by rewrite Hf, Hp.
Qed.

(** *** Two snapshots that differ in the password *)










End Properties.


(** C5: on [N] groups that each carry a rule list, the helper returns the
    [N] rule lists themselves, in the order of the groups and without
    looking inside them; on no group at all it returns the empty sequence,
    and not an error. *)
Theorem BuildMFARules_flat (groups : list value) (rs : list (list value)) :
  Forall2 carries_rule groups rs →
  resourceIdentityUserV3BuildMFARules groups = Ok (VList <$> rs)
  ∧ length (VList <$> rs) = length groups
  ∧ (∀ i r, rs !! i = Some r → (VList <$> rs) !! i = Some (VList r))
  ∧ resourceIdentityUserV3BuildMFARules [] = Ok [].
Proof.
  intros H. split; [|split; [|split]].
  - unfold resourceIdentityUserV3BuildMFARules.
    by rewrite (BuildMFARules_from_app [] groups rs H).
  - rewrite length_fmap. symmetry. by eapply Forall2_length.
  - intros i r Hi. by rewrite list_lookup_fmap, Hi.
  - reflexivity.
Qed.

(** ** The properties on closed inputs *)

Lemma BuildMFARules_flat_witness :
  resourceIdentityUserV3BuildMFARules
    [mfaGroup otp_sms; mfaGroup (VList [VString "totp"])]
  = Ok [otp_sms; VList [VString "totp"]].
Proof.
  apply (proj1 (BuildMFARules_flat
    [mfaGroup otp_sms; mfaGroup (VList [VString "totp"])]
    [[VString "otp"; VString "sms"]; [VString "totp"]]
    ltac:(repeat constructor; eexists; (split; [reflexivity|reflexivity])))).
Defined.

Lemma Read_missing_removes_record_witness :
  (run (resourceIdentityUserV3Read service_gone) d_known tt).1 = Ok tt
  ∧ Id (d (run (resourceIdentityUserV3Read service_gone) d_known tt).2) = ""
  ∧ (∃ e, (run (resourceIdentityUserV3Read service_down) d_known tt).1 = Err e).
Proof.
  destruct (Read_missing_removes_record service_gone (mkSt d_known tt [])
              "jp1" ErrDefault404 tt) as [Hgone _];
    [vm_compute; reflexivity | reflexivity |].
  destruct (Read_missing_removes_record service_down (mkSt d_known tt [])
              "jp1" (ErrMsg "timeout") tt) as [_ Hdown];
    [vm_compute; reflexivity | reflexivity |].
  destruct (Hgone eq_refl) as (Hok & _ & Hid).
  destruct (Hdown ltac:(discriminate)) as [Herr _].
  split; [exact Hok|]. split; [exact Hid | exact Herr].
Defined.

Lemma Read_flags_frame_witness :
  Get (d (run (resourceIdentityUserV3Read service) d_known tt).2)
      "ignore_password_expiry"
  = Get d_known "ignore_password_expiry"
  ∧ Get (d (run (resourceIdentityUserV3Read service) d_known tt).2)
        "multi_factor_auth_enabled"
    = VBool true.
Proof.
  split.
  - apply (Read_flags_frame service (mkSt d_known tt []) "jp1" alice tt
             IgnorePasswordExpiry "ignore_password_expiry");
      [vm_compute; reflexivity | reflexivity | vm_compute; reflexivity
      | repeat constructor | vm_compute; reflexivity].
  - destruct (Read_flags_frame service (mkSt d_known tt []) "jp1" alice tt
                MultiFactorAuthEnabled "multi_factor_auth_enabled")
      as [_ Hset];
      [vm_compute; reflexivity | reflexivity | vm_compute; reflexivity
      | repeat constructor |].
    destruct (Hset (VBool true) ltac:(vm_compute; reflexivity))
      as (b & Hb & Hget).
    injection Hb as <-. exact Hget.
Defined.

Lemma Read_mfa_rules_witness :
  ∃ groups,
    Get (d (run (resourceIdentityUserV3Read service) d_known tt).2)
        "multi_factor_auth_rule" = VList groups
    ∧ length groups = 1
    ∧ groups !! 0 = Some (VMap {[ "rule" := otp_sms ]}).
Proof.
  destruct (Read_mfa_rules service (mkSt d_known tt []) "jp1" alice tt)
    as [Hrules _];
    [vm_compute; reflexivity | reflexivity | vm_compute; reflexivity |].
  destruct (Hrules [otp_sms] ltac:(vm_compute; reflexivity))
    as (groups & Hget & Hlen & Hith).
  exists groups. split; [exact Hget|]. split; [exact Hlen|].
  exact (Hith 0 otp_sms eq_refl).
Defined.

Lemma Create_option_flags_witness :
  ∃ createOpts rest,
    requests (trace (run (resourceIdentityUserV3Create service) d_create tt).2)
      = CallCreate createOpts :: rest
    ∧ co_Options createOpts !! MultiFactorAuthEnabled = Some (VBool true)
    ∧ co_Options createOpts !! IgnorePasswordExpiry = None.
Proof.
  destruct (Create_option_flags service d_create tt "jp1"
              MultiFactorAuthEnabled "multi_factor_auth_enabled")
    as (createOpts & rest & Hreq & Htrue & _);
    [vm_compute; reflexivity | vm_compute; reflexivity | repeat constructor |].
  destruct (Create_option_flags service d_create tt "jp1"
              IgnorePasswordExpiry "ignore_password_expiry")
    as (createOpts' & rest' & Hreq' & _ & _ & _ & Hfalse);
    [vm_compute; reflexivity | vm_compute; reflexivity | repeat constructor |].
  exists createOpts, rest. split; [exact Hreq|]. split.
  - apply Htrue. vm_compute; reflexivity.
  - rewrite Hreq in Hreq'. injection Hreq' as -> _.
    apply Hfalse. vm_compute; reflexivity.
Defined.

Lemma Update_description_only_witness :
  ∃ rest,
    requests (trace (run (resourceIdentityUserV3Update service) d_described tt).2)
    = CallUpdate "u1" described_sent :: rest.
Proof.
  destruct (Update_description_only service d_described tt "jp1")
    as (new & rest & Hnew & Hreq & _);
    [vm_compute; reflexivity | vm_compute; reflexivity
    | vm_compute; reflexivity | |].
  - intros key Hin Hne. unfold tracked in Hin.
    repeat (apply elem_of_cons in Hin as [->|Hin];
            [first [by destruct Hne | vm_compute; reflexivity]|]).
    by apply elem_of_nil in Hin.
  - exists rest. rewrite Hreq.
    assert (new = "new") as -> by (vm_compute in Hnew; congruence).
    reflexivity.
Defined.

Lemma enabled_always_explicit_witness :
  (∃ createOpts rest,
     requests (trace (run (resourceIdentityUserV3Create service) d_disabled tt).2)
       = CallCreate createOpts :: rest
     ∧ co_Enabled createOpts = Some false)
  ∧ (∃ updateOpts rest,
       requests (trace (run (resourceIdentityUserV3Update service) d_disabled tt).2)
         = CallUpdate "u1" updateOpts :: rest
       ∧ uo_Enabled updateOpts = Some false).
Proof.
  destruct (enabled_always_explicit service d_disabled tt "jp1")
    as (b & Hb & (createOpts & rest & Hreq & Hen & _) & Hupd);
    [vm_compute; reflexivity | vm_compute; reflexivity |].
  assert (b = false) as -> by (vm_compute in Hb; congruence).
  split.
  - exists createOpts, rest. split; [exact Hreq | exact Hen].
  - destruct (Hupd ltac:(vm_compute; reflexivity))
      as (updateOpts & rest' & Hreq' & Hen' & _).
    exists updateOpts, rest'. split; [exact Hreq' | exact Hen'].
Defined.

Lemma Update_request_then_Read_witness :
  run (resourceIdentityUserV3Update service) d_known tt
  = run (resourceIdentityUserV3Read service) d_known tt.
Proof.
  apply (Update_request_then_Read service d_known tt "jp1");
    [vm_compute; reflexivity | vm_compute; reflexivity |].
  intros key Hin. unfold tracked in Hin.
  repeat (apply elem_of_cons in Hin as [->|Hin]; [vm_compute; reflexivity|]).
  by apply elem_of_nil in Hin.
Defined.



(** ** Where the code departs from the specification *)

(** C1 as the specification has it: a flag that is set is sent, also when
    it is set to [false].  Here [ignore_password_expiry] is set to [false]
    and the request goes out without it. *)
Lemma Create_drops_flag_set_to_false :
  getRaw d_create "ignore_password_expiry" = Some (VBool false)
  ∧ requests (trace (run (resourceIdentityUserV3Create service) d_create tt).2)
    = [CallCreate create_sent; CallGet "u1"]
  ∧ co_Options create_sent !! IgnorePasswordExpiry = None.
Proof. repeat split; vm_compute; reflexivity. Qed.

(** C2: the rule list is the one field that changed, and Update builds
    the options for it but sends no request: the run consists of the
    fetch of Read alone. *)
Theorem Update_rules_alone_sends_nothing :
  conforms d_ruled = true
  ∧ HasChange d_ruled "multi_factor_auth_rule" = true
  ∧ existsb (HasChange d_ruled) tracked = false
  ∧ (run (resourceIdentityUserV3Update service) d_ruled tt).1 = Ok tt
  ∧ requests (trace (run (resourceIdentityUserV3Update service) d_ruled tt).2)
    = [CallGet "u1"].
Proof. repeat split; vm_compute; reflexivity. Qed.

(** C3 as the specification has it: without the MFA-rules key in the
    returned options the field is left empty.  Here the service holds no
    options, Read succeeds, and the field still holds the group the
    snapshot had before. *)
Lemma Read_keeps_rules_not_returned :
  u_Options alice_plain !! "multi_factor_auth_rules" = None
  ∧ (run (resourceIdentityUserV3Read service_plain) d_known tt).1 = Ok tt
  ∧ Get (d (run (resourceIdentityUserV3Read service_plain) d_known tt).2)
        "multi_factor_auth_rule"
    = VList [mfaGroup otp_sms]
  ∧ VList [mfaGroup otp_sms] ≠ VList [].
Proof. repeat split; try (vm_compute; reflexivity). discriminate. Qed.

(** C4 as the specification has it: Update always ends with a Read.  Here
    the description changed, the service refuses the update, and Update
    returns the error: the one request of the run is the update, no fetch
    follows. *)
Lemma Update_refused_skips_Read :
  HasChange d_described "description" = true
  ∧ (run (resourceIdentityUserV3Update service_conflict) d_described tt).1
    = Err (ErrMsg "Error updating ECL user: conflict")
  ∧ requests
      (trace (run (resourceIdentityUserV3Update service_conflict) d_described tt).2)
    = [CallUpdate "u1" described_sent].
Proof. repeat split; vm_compute; reflexivity. Qed.


(** * Further properties of the callbacks *)

Section Further.
Context {R : Type} (meta : Meta R).

Implicit Types (st : St R).

(** *** Delete, and a client that cannot be had *)

(** X1: Delete sends one delete request for the ID of the record and nothing
    else: it writes no log entry and leaves the snapshot as it is, the ID
    included.  It returns the failure of the request, wrapped, or no error
    (lines 286-299). *)
Theorem Delete_one_request st c :
  identityV3Client meta (GetRegion meta (d st)) = inr c →
  (resourceIdentityUserV3Delete meta st).1
    = match (users_Delete meta c (Id (d st)) (remote st)).1 with
      | Some err => Err (Errorf "Error deleting ECL user: " err)
      | None => Ok tt
      end
  ∧ d (resourceIdentityUserV3Delete meta st).2 = d st
  ∧ remote (resourceIdentityUserV3Delete meta st).2
    = (users_Delete meta c (Id (d st)) (remote st)).2
  ∧ trace (resourceIdentityUserV3Delete meta st).2
    = trace st ++ [Request (CallDelete (Id (d st)))].
Proof.
  intros Hc. unfold resourceIdentityUserV3Delete.
  rewrite (bind_ok _ _ _ _ _ (newClient_ok meta _ _ Hc)).
  cbv beta iota zeta delta [mbind M_bind mret M_ret read request fail lift].
  by destruct (users_Delete meta c (Id (d st)) (remote st)) as [[err|] r'].
Qed.

(** X2: When no client can be had for the region, each of the four callbacks
    returns that error, wrapped, and has done nothing: no request, no log
    entry, the snapshot untouched (lines 117-120, 165-168, 209-212,
    288-291). *)
Theorem no_client_no_effect st e :
  identityV3Client meta (GetRegion meta (d st)) = inl e →
  resourceIdentityUserV3Create meta st
    = (Err (Errorf "Error creating ECL identity client: " e), st)
  ∧ resourceIdentityUserV3Read meta st
    = (Err (Errorf "Error creating ECL identity client: " e), st)
  ∧ resourceIdentityUserV3Update meta st
    = (Err (Errorf "Error creating ECL identity client: " e), st)
  ∧ resourceIdentityUserV3Delete meta st
    = (Err (Errorf "Error creating ECL identity client: " e), st).
Proof.
  intros Hc. pose proof (newClient_err meta _ _ Hc) as Hn.
  repeat split.
  - unfold resourceIdentityUserV3Create. by apply bind_err.
  - unfold resourceIdentityUserV3Read. by apply bind_err.
  - unfold resourceIdentityUserV3Update. by apply bind_err.
  - unfold resourceIdentityUserV3Delete. by apply bind_err.
Qed.

End Further.

(** *** The rule groups *)

Lemma carries_rule_unique g r1 r2 :
  carries_rule g r1 → carries_rule g r2 → r1 = r2.
Proof. intros (m1 & -> & H1) (m2 & [= <-] & H2). congruence. Qed.

Lemma BuildMFARules_from_outcome acc groups :
  match BuildMFARules_from acc groups with
  | Ok out => ∃ rs, Forall2 carries_rule groups rs ∧ out = acc ++ (VList <$> rs)
  | Err _ => False
  | Panic => Exists (λ g, ∀ r, ¬ carries_rule g r) groups
  end.
Proof.
  revert acc. induction groups as [|g groups IH]; intros acc; simpl.
  - exists []. split; [constructor|]. by rewrite app_nil_r.
  - assert (∀ m, g = VMap m → (∀ l, m !! "rule" ≠ Some (VList l)) →
              ∀ r, ¬ carries_rule g r) as Hbad.
    { intros m -> Hm r (m' & [= <-] & Hr). by eapply Hm. }
    destruct g as [| | | |m]; simpl;
      try (apply Exists_cons_hd; by intros r (m' & ? & _)).
    destruct (m !! "rule") as [[| | |l|]|] eqn:Hm;
      try (apply Exists_cons_hd; apply (Hbad m eq_refl); congruence).
    specialize (IH (acc ++ [VList l])).
    destruct (BuildMFARules_from (acc ++ [VList l]) groups) as [out|e|].
    + destruct IH as (rs & Hrs & ->). exists (l :: rs). split.
      * constructor; [by exists m|done].
      * by rewrite <- app_assoc.
    + done.
    + by apply Exists_cons_tl.
Qed.

(** X3: The helper returns a sequence exactly on groups that are all maps with
    a list under [rule]; on any other input the type assertions at lines
    305-306 panic.  It never returns an error. *)
Theorem BuildMFARules_outcome groups :
  match resourceIdentityUserV3BuildMFARules groups with
  | Ok out => ∃ rs, Forall2 carries_rule groups rs ∧ out = VList <$> rs
  | Err _ => False
  | Panic => Exists (λ g, ∀ r, ¬ carries_rule g r) groups
  end.
Proof. apply (BuildMFARules_from_outcome [] groups). Qed.

Lemma mfaGroup_carries r : carries_rule (mfaGroup (VList r)) r.
Proof. eexists. split; [reflexivity|]. apply lookup_singleton_eq. Qed.

(** X4: Flattening undoes the grouping Read performs: the groups Read builds
    from a sequence of rule lists (lines 194-199) are flattened by the
    helper to that very sequence. *)
Theorem regroup_then_flatten (rs : list (list value)) :
  resourceIdentityUserV3BuildMFARules (mfaGroup <$> (VList <$> rs))
  = Ok (VList <$> rs).
Proof.
  unfold resourceIdentityUserV3BuildMFARules.
  rewrite (BuildMFARules_from_app [] _ rs); [done|].
  induction rs as [|r rs IH]; simpl; constructor; [|done].
  apply mfaGroup_carries.
Qed.

(** X5: Grouping undoes the flattening, for groups that hold nothing but
    their [rule] list: regrouping what the helper returns gives the groups
    back. *)
Theorem flatten_then_regroup groups out :
  Forall (λ g, ∃ v, g = mfaGroup v) groups →
  resourceIdentityUserV3BuildMFARules groups = Ok out →
  mfaGroup <$> out = groups.
Proof.
  intros Hg Hout.
  pose proof (BuildMFARules_outcome groups) as H. rewrite Hout in H.
  destruct H as (rs & Hrs & ->). clear Hout.
  induction Hrs as [|g r groups rs Hc _ IH]; simpl; [done|].
  apply Forall_cons in Hg as [[v ->] Hg]. f_equal; [|by apply IH].
  destruct Hc as (m & [= <-] & Hm).
  rewrite lookup_singleton_eq in Hm. by injection Hm as ->.
Qed.

Section FurtherRead.
Context {R : Type} (meta : Meta R).

Implicit Types (st : St R).

(** *** What Read touches *)

Lemma Read_option_step options ty option st :
  Read_option (R:=R) options tt (ty, option) st
  = match options !! option with
    | Some (VBool b) =>
        (Ok tt, mkSt (Set_ (d st) option (VBool b)) (remote st) (trace st))
    | Some _ => (Panic, st)
    | None => (Ok tt, st)
    end.
Proof.
  unfold Read_option. by destruct (options !! option) as [[]|].
Qed.

Lemma Read_loop_frame options table st :
  rd_id (d (forRange (R:=R) table (Read_option options) tt st).2) = rd_id (d st)
  ∧ state (d (forRange (R:=R) table (Read_option options) tt st).2) = state (d st)
  ∧ planned (d (forRange (R:=R) table (Read_option options) tt st).2)
    = planned (d st)
  ∧ ∀ key, key ∉ table.*2 →
      written (d (forRange (R:=R) table (Read_option options) tt st).2) !! key
      = written (d st) !! key.
Proof.
  revert st. induction table as [|[ty option] table IH]; intros st.
  - done.
  - cbn [forRange]. unfold mbind, M_bind. rewrite Read_option_step.
    destruct (options !! option) as [[| b | | |]|];
      try (by repeat split).
    + destruct (IH (mkSt (Set_ (d st) option (VBool b)) (remote st) (trace st)))
        as (Hid & Hs & Hp & Hw).
      destruct (forRange table (Read_option options) tt _) as [[[]| |] st'];
        cbn [fst snd d] in *; rewrite Hid, Hs, Hp;
        (repeat split; try done);
        intros key [Hne Hk]%not_elem_of_cons; rewrite Hw by done;
        cbn [written Set_]; by rewrite lookup_insert_ne.
    + destruct (IH st) as (Hid & Hs & Hp & Hw).
      destruct (forRange table (Read_option options) tt st) as [[[]| |] st'];
        cbn [fst snd d] in *;
        (repeat split; try done);
        intros key [Hne Hk]%not_elem_of_cons; by apply Hw.
Qed.

Lemma Read_fields_other key :
  key ∉ Read_fields →
  (key ∉ userOptions.*2)
  ∧ key ≠ "multi_factor_auth_rule"
  ∧ ∀ user d0 region,
      written (Set_ (Read_scalars user d0) "region" region) !! key
      = written d0 !! key.
Proof.
  unfold Read_fields. rewrite !not_elem_of_cons. intros Hk. destruct_and!.
  split; [|split; [done|]].
  - unfold userOptions. cbn [fmap list_fmap snd]. rewrite !not_elem_of_cons.
    repeat split; first [done | apply not_elem_of_nil].
  - intros user d0 region. unfold Read_scalars, Set_. cbn [written].
    by rewrite !lookup_insert_ne.
Qed.

Lemma Read_frame st :
  state (d (resourceIdentityUserV3Read meta st).2) = state (d st)
  ∧ planned (d (resourceIdentityUserV3Read meta st).2) = planned (d st)
  ∧ (rd_id (d (resourceIdentityUserV3Read meta st).2) = rd_id (d st)
     ∨ rd_id (d (resourceIdentityUserV3Read meta st).2) = "")
  ∧ ∀ key, key ∉ Read_fields →
      written (d (resourceIdentityUserV3Read meta st).2) !! key
      = written (d st) !! key.
Proof.
  assert (∀ d1 : ResourceData, state d1 = state (d st) →
            planned d1 = planned (d st) → rd_id d1 = rd_id (d st) →
            (∀ key, key ∉ Read_fields → written d1 !! key = written (d st) !! key) →
            state d1 = state (d st) ∧ planned d1 = planned (d st)
            ∧ (rd_id d1 = rd_id (d st) ∨ rd_id d1 = "")
            ∧ ∀ key, key ∉ Read_fields → written d1 !! key = written (d st) !! key)
    as Hsame.
  { intros d1 Hs Hp Hid Hw. split; [done|]. split; [done|].
    split; [by left|]. done. }
  remember (resourceIdentityUserV3Read meta st) as res eqn:Hres.
  unfold resourceIdentityUserV3Read in Hres.
  destruct (identityV3Client meta (GetRegion meta (d st))) as [e|c] eqn:Hc.
  { rewrite (bind_err _ _ _ _ _ (newClient_err meta _ _ Hc)) in Hres.
    subst res. by apply Hsame. }
  rewrite (bind_ok _ _ _ _ _ (newClient_ok meta _ _ Hc)) in Hres.
  cbv beta iota zeta delta [mbind M_bind mret M_ret read update emit lift
    request log_Printf] in Hres.
  destruct (users_Get meta c (Id (d st)) (remote st)) as [[e|user] r'].
  { destruct e; cbv beta iota zeta delta [CheckDeleted update fail lift] in Hres;
      subst res; cbn [snd d]; [|by apply Hsame].
    split; [done|]. split; [done|]. split; [by right|]. done. }
  cbv beta iota zeta delta [d remote trace] in Hres.
  match type of Hres with
  | context [forRange ?t ?b ?u ?s] =>
      destruct (Read_loop_frame (u_Options user) t s) as (Hid & Hs & Hp & Hw);
      destruct (forRange t b u s) as [[u'| |] st']
  end; cbn [snd fst d] in Hid, Hs, Hp, Hw.
  - assert (∀ key, key ∉ Read_fields →
              written (d st') !! key = written (d st) !! key) as Hw'.
    { intros key (Hflag & _ & Hscalar)%Read_fields_other.
      rewrite Hw by done. apply Hscalar. }
    destruct (u_Options user !! "multi_factor_auth_rules") as [[| | | l |]|];
      subst res; cbn [snd fst d]; try (by apply Hsame).
    apply Hsame; try done.
    intros key Hk. cbn [written Set_].
    destruct (Read_fields_other key Hk) as (_ & Hne & _).
    rewrite lookup_insert_ne by done. by apply Hw'.
  - subst res. cbn [snd fst]. apply Hsame; try done.
    intros key (Hflag & _ & Hscalar)%Read_fields_other.
    rewrite Hw by done. apply Hscalar.
  - subst res. cbn [snd fst]. apply Hsame; try done.
    intros key (Hflag & _ & Hscalar)%Read_fields_other.
    rewrite Hw by done. apply Hscalar.
Qed.

(** X6: Read writes into the snapshot and nowhere else: the last known state
    and the planned values stay as they are, the ID is kept (or reset, when
    the record is gone), and a field that is not among the twelve Read
    writes reads as before.  The password is such a field: Read never
    brings one back.  This holds however Read ends. *)
Theorem Read_touches_only_its_fields st :
  state (d (resourceIdentityUserV3Read meta st).2) = state (d st)
  ∧ planned (d (resourceIdentityUserV3Read meta st).2) = planned (d st)
  ∧ (Id (d (resourceIdentityUserV3Read meta st).2) = Id (d st)
     ∨ Id (d (resourceIdentityUserV3Read meta st).2) = "")
  ∧ (∀ key, key ∉ Read_fields →
       getRaw (d (resourceIdentityUserV3Read meta st).2) key
       = getRaw (d st) key)
  ∧ Get (d (resourceIdentityUserV3Read meta st).2) "password"
    = Get (d st) "password".
Proof.
  destruct (Read_frame st) as (Hs & Hp & Hid & Hw).
  assert (∀ key, key ∉ Read_fields →
            getRaw (d (resourceIdentityUserV3Read meta st).2) key
            = getRaw (d st) key) as Hraw.
  { intros key Hk. unfold getRaw. by rewrite Hp, Hw. }
  split; [exact Hs|]. split; [exact Hp|]. split; [exact Hid|].
  split; [exact Hraw|].
  unfold Get. rewrite Hraw; [done|].
  unfold Read_fields. rewrite !not_elem_of_cons.
  repeat split; first [done | apply not_elem_of_nil].
Qed.

(** *** What Read writes *)

Lemma Read_scalars_lookup user d0 region :
  written (Set_ (Read_scalars user d0) "region" region) !! "default_project_id"
    = Some (VString (u_DefaultProjectID user))
  ∧ written (Set_ (Read_scalars user d0) "region" region) !! "description"
    = Some (VString (u_Description user))
  ∧ written (Set_ (Read_scalars user d0) "region" region) !! "domain_id"
    = Some (VString (u_DomainID user))
  ∧ written (Set_ (Read_scalars user d0) "region" region) !! "enabled"
    = Some (VBool (u_Enabled user))
  ∧ written (Set_ (Read_scalars user d0) "region" region) !! "extra"
    = Some (VMap (u_Extra user))
  ∧ written (Set_ (Read_scalars user d0) "region" region) !! "name"
    = Some (VString (u_Name user))
  ∧ written (Set_ (Read_scalars user d0) "region" region) !! "region"
    = Some region.
Proof.
  unfold Read_scalars, Set_. cbn [written].
  repeat split;
    repeat first [ by rewrite lookup_insert_eq
                 | rewrite lookup_insert_ne by done ].
Qed.

Lemma scalar_not_flag key :
  key ∈ ["default_project_id"; "description"; "domain_id"; "enabled";
         "extra"; "name"; "region"] →
  (key ∉ userOptions.*2) ∧ key ≠ "multi_factor_auth_rule".
Proof.
  intros Hk.
  repeat (apply elem_of_cons in Hk as [->|Hk];
          [split; [|done]; unfold userOptions; cbn [fmap list_fmap snd];
           rewrite !not_elem_of_cons;
           repeat split; first [done | apply not_elem_of_nil]|]).
  by apply elem_of_nil in Hk.
Qed.

Lemma Read_result_scalar user d0 key :
  key ∈ ["default_project_id"; "description"; "domain_id"; "enabled";
         "extra"; "name"; "region"] →
  written (Read_result meta user d0) !! key
  = written (Set_ (Read_scalars user d0) "region"
               (VString (GetRegion meta (Read_scalars user d0)))) !! key.
Proof.
  intros [Hflag Hne]%scalar_not_flag. unfold Read_result. cbv zeta.
  cbn [written].
  assert (∀ w : gmap string value,
    match u_Options user !! "multi_factor_auth_rules" with
    | Some (VList v) => <["multi_factor_auth_rule" := VList (mfaGroup <$> v)]> w
    | _ => w
    end !! key = w !! key) as ->.
  { intros w. destruct (u_Options user !! "multi_factor_auth_rules") as [[]|];
      try done. by rewrite lookup_insert_ne. }
  by rewrite flagWrites_other.
Qed.

Lemma Read_result_Get user d0 :
  Get (Read_result meta user d0) "default_project_id"
    = VString (u_DefaultProjectID user)
  ∧ Get (Read_result meta user d0) "description" = VString (u_Description user)
  ∧ Get (Read_result meta user d0) "domain_id" = VString (u_DomainID user)
  ∧ Get (Read_result meta user d0) "enabled" = VBool (u_Enabled user)
  ∧ Get (Read_result meta user d0) "extra" = VMap (u_Extra user)
  ∧ Get (Read_result meta user d0) "name" = VString (u_Name user)
  ∧ Get (Read_result meta user d0) "region"
    = VString (GetRegion meta (Read_scalars user d0)).
Proof.
  destruct (Read_scalars_lookup user d0
              (VString (GetRegion meta (Read_scalars user d0))))
    as (H1 & H2 & H3 & H4 & H5 & H6 & H7).
  assert (∀ key v,
    key ∈ ["default_project_id"; "description"; "domain_id"; "enabled";
           "extra"; "name"; "region"] →
    written (Set_ (Read_scalars user d0) "region"
               (VString (GetRegion meta (Read_scalars user d0)))) !! key
      = Some v →
    Get (Read_result meta user d0) key = v) as Hget'.
  { intros key v Hk Hv. unfold Get, getRaw.
    by rewrite (Read_result_scalar user d0 key Hk), Hv. }
  repeat split; (eapply Hget'; [|eassumption]; set_unfold; tauto).
Qed.

(** X7: A Read that succeeds has written the seven scalar fields: six taken
    from the user the service returned, and the region, which is the one
    the provider works out for the snapshot once those six are written
    (lines 177-183).  The ID is kept. *)
Theorem Read_writes_scalars st c user r' :
  identityV3Client meta (GetRegion meta (d st)) = inr c →
  users_Get meta c (Id (d st)) (remote st) = (inr user, r') →
  (resourceIdentityUserV3Read meta st).1 = Ok tt →
  Get (d (resourceIdentityUserV3Read meta st).2) "default_project_id"
    = VString (u_DefaultProjectID user)
  ∧ Get (d (resourceIdentityUserV3Read meta st).2) "description"
    = VString (u_Description user)
  ∧ Get (d (resourceIdentityUserV3Read meta st).2) "domain_id"
    = VString (u_DomainID user)
  ∧ Get (d (resourceIdentityUserV3Read meta st).2) "enabled"
    = VBool (u_Enabled user)
  ∧ Get (d (resourceIdentityUserV3Read meta st).2) "extra"
    = VMap (u_Extra user)
  ∧ Get (d (resourceIdentityUserV3Read meta st).2) "name"
    = VString (u_Name user)
  ∧ Get (d (resourceIdentityUserV3Read meta st).2) "region"
    = VString (GetRegion meta (Read_scalars user (d st)))
  ∧ Id (d (resourceIdentityUserV3Read meta st).2) = Id (d st).
Proof.
  intros Hc Hget Hok.
  pose proof (Read_fetched_ok meta _ _ _ _ Hc Hget Hok) as Hflags.
  rewrite (Read_fetched meta _ _ _ _ Hc Hget Hflags). cbn [snd d].
  destruct (Read_result_Get user (d st)) as (H1 & H2 & H3 & H4 & H5 & H6 & H7).
  by repeat split.
Qed.

(** *** A flag that is not a boolean *)

Lemma Read_loop_panic options table st :
  Exists (λ entry, ∃ v, options !! entry.2 = Some v ∧ ∀ b, v ≠ VBool b) table →
  (forRange (R:=R) table (Read_option options) tt st).1 = Panic.
Proof.
  intros H. revert st.
  induction table as [|[ty option] table IH]; intros st.
  - by apply Exists_nil in H.
  - cbn [forRange]. unfold mbind, M_bind. rewrite Read_option_step.
    apply Exists_cons in H as [(v & Hv & Hbad)|Htail].
    + cbn [snd] in Hv. rewrite Hv.
      destruct v as [| b | | |]; try done. by destruct (Hbad b).
    + destruct (options !! option) as [[| b | | |]|]; try done;
        by apply IH.
Qed.

(** X8: Read asserts that every flag found in the returned options is a
    boolean (line 188).  When the service holds something else under one
    of the four flags, Read panics: by then the scalar fields are written,
    and the rule groups are not. *)
Theorem Read_panics_on_odd_flag st c user r' ty option v :
  identityV3Client meta (GetRegion meta (d st)) = inr c →
  users_Get meta c (Id (d st)) (remote st) = (inr user, r') →
  (ty, option) ∈ userOptions →
  u_Options user !! option = Some v →
  (∀ b, v ≠ VBool b) →
  (resourceIdentityUserV3Read meta st).1 = Panic
  ∧ Get (d (resourceIdentityUserV3Read meta st).2) "name"
    = VString (u_Name user)
  ∧ getRaw (d (resourceIdentityUserV3Read meta st).2) "multi_factor_auth_rule"
    = getRaw (d st) "multi_factor_auth_rule".
Proof.
  intros Hc Hget Hin Hv Hbad.
  remember (resourceIdentityUserV3Read meta st) as res eqn:Hres.
  unfold resourceIdentityUserV3Read in Hres.
  rewrite (bind_ok _ _ _ _ _ (newClient_ok meta _ _ Hc)) in Hres.
  cbv beta iota zeta delta [mbind M_bind mret M_ret read update emit lift
    request log_Printf] in Hres.
  rewrite Hget in Hres. cbv beta iota zeta delta [d remote trace] in Hres.
  match type of Hres with
  | context [forRange ?t ?b ?u ?s] =>
      destruct (Read_loop_frame (u_Options user) t s) as (_ & _ & Hp & Hw);
      assert ((forRange t b u s).1 = Panic) as Hpanic
        by (apply Read_loop_panic, Exists_exists; exists (ty, option);
            split; [done|]; by exists v);
      destruct (forRange t b u s) as [[u'| |] st']
  end; cbn [snd fst d] in Hp, Hw, Hpanic; try discriminate.
  subst res. cbn [fst snd]. split; [done|].
  destruct (Read_scalars_lookup user (d st)
              (VString (GetRegion meta (Read_scalars user (d st)))))
    as (_ & _ & _ & _ & _ & Hname & _).
  split.
  - assert (written (d st') !! "name" = Some (VString (u_Name user))) as Hn.
    { rewrite Hw; [exact Hname|]. apply scalar_not_flag. set_unfold; tauto. }
    unfold Get, getRaw. by rewrite Hn.
  - unfold getRaw. rewrite Hp, Hw.
    + unfold Read_scalars, Set_. cbn [written planned].
      by rewrite !lookup_insert_ne.
    + unfold userOptions. cbn [fmap list_fmap snd]. rewrite !not_elem_of_cons.
      repeat split; first [done | apply not_elem_of_nil].
Qed.

(** *** What Create leaves behind *)

Lemma Read_trace_id st :
  ∃ extra,
    trace (resourceIdentityUserV3Read meta st).2 = trace st ++ extra
    ∧ ∀ c', c' ∈ requests extra → c' = CallGet (Id (d st)).
Proof.
  remember (resourceIdentityUserV3Read meta st) as res eqn:Hres.
  unfold resourceIdentityUserV3Read in Hres.
  destruct (identityV3Client meta (GetRegion meta (d st))) as [e|c] eqn:Hc.
  { rewrite (bind_err _ _ _ _ _ (newClient_err meta _ _ Hc)) in Hres.
    subst res. exists []. cbn [snd]. rewrite app_nil_r. split; [done|].
    by intros c' ?%elem_of_nil. }
  rewrite (bind_ok _ _ _ _ _ (newClient_ok meta _ _ Hc)) in Hres.
  cbv beta iota zeta delta [mbind M_bind mret M_ret read update emit lift
    request log_Printf] in Hres.
  destruct (users_Get meta c (Id (d st)) (remote st)) as [[e|user] r'].
  { exists [Request (CallGet (Id (d st)))]. split.
    - subst res. by destruct e.
    - by intros c' ->%list_elem_of_singleton. }
  exists [Request (CallGet (Id (d st)));
          Log "[DEBUG] Retrieved ECL user: %#v" (PUser user)].
  split; [|by intros c' ->%list_elem_of_singleton].
  cbv beta iota zeta delta [d remote trace] in Hres.
  match type of Hres with
  | context [forRange ?t ?b ?u ?s] =>
      pose proof (Read_loop_trace (u_Options user) t s) as Ht;
      destruct (forRange t b u s) as [[u'| |] st']
  end; cbn [snd fst trace] in Ht; rewrite <- app_assoc in Ht; subst res;
    cbn [snd]; try done.
  by destruct (u_Options user !! "multi_factor_auth_rules") as [[]|].
Qed.

(** X9: Create sends its one create request, and what follows hangs on the
    answer.  When the service refuses, Create returns that error, wrapped:
    no ID is recorded, nothing is fetched and the snapshot is as before.
    When the service returns the user, Create records her ID and is from
    then on a Read of that record: every later request is a fetch of that
    ID, and the ID stays unless that Read finds the record gone
    (lines 153-160). *)
Theorem Create_records_the_returned_id d0 r c :
  conforms d0 = true →
  identityV3Client meta (GetRegion meta d0) = inr c →
  ∃ createOpts logged_opts,
    match users_Create meta c createOpts r with
    | (inl err, r') =>
        run (resourceIdentityUserV3Create meta) d0 r
        = (Err (Errorf "Error creating ECL user: " err),
           mkSt d0 r'
             [Log "[DEBUG] Create Options: %#v" (PCreateOpts logged_opts);
              Request (CallCreate createOpts)])
    | (inr user, r') =>
        run (resourceIdentityUserV3Create meta) d0 r
        = resourceIdentityUserV3Read meta
            (mkSt (SetId d0 (u_ID user)) r'
               [Log "[DEBUG] Create Options: %#v" (PCreateOpts logged_opts);
                Request (CallCreate createOpts)])
        ∧ (Id (d (run (resourceIdentityUserV3Create meta) d0 r).2) = u_ID user
           ∨ Id (d (run (resourceIdentityUserV3Create meta) d0 r).2) = "")
        ∧ ∀ c', c' ∈ requests
                       (trace (run (resourceIdentityUserV3Create meta) d0 r).2) →
                c' = CallCreate createOpts ∨ c' = CallGet (u_ID user)
    end.
Proof.
  intros H Hc.
  exists (set_co_Password (the_string (Get d0 "password")) (Create_opts d0)),
         (Create_opts d0).
  unfold run. rewrite (Create_run meta _ c) by done.
  cbn [d remote trace app]. cbv zeta.
  destruct (users_Create meta c _ r) as [[err|user] r']; [done|].
  split; [done|].
  match goal with
  | |- context [resourceIdentityUserV3Read meta ?s] =>
      destruct (Read_frame s) as (_ & _ & Hid & _);
      destruct (Read_trace_id s) as (extra & Ht & Hreq)
  end.
  split; [exact Hid|].
  intros c'. rewrite Ht. cbn [trace]. rewrite requests_app.
  intros [Hin|Hin]%elem_of_app.
  - left. cbn in Hin. by apply list_elem_of_singleton in Hin.
  - right. by apply Hreq.
Qed.

Lemma Create_flags_other d0 table options ty :
  ty ∉ table.*1 → Create_flags d0 table options !! ty = options !! ty.
Proof.
  revert options. induction table as [|[ty' option] table IH];
    intros options Hty; simpl.
  - done.
  - apply not_elem_of_cons in Hty as [Hne Hty]. rewrite IH by done.
    destruct (GetOk d0 option) as [v [|]]; [|done].
    by rewrite lookup_insert_ne.
Qed.

(** X10: Create sends the rule lists of the snapshot, flattened, under the
    MFA-rules key, unless there are none: for an empty rule list the key is
    left out of the options (lines 141-144). *)
Theorem Create_rules_option d0 r c groups rs :
  conforms d0 = true →
  identityV3Client meta (GetRegion meta d0) = inr c →
  Get d0 "multi_factor_auth_rule" = VList groups →
  Forall2 carries_rule groups rs →
  ∃ createOpts rest,
    requests (trace (run (resourceIdentityUserV3Create meta) d0 r).2)
      = CallCreate createOpts :: rest
    ∧ co_Options createOpts !! MultiFactorAuthRules
      = match rs with
        | [] => None
        | _ :: _ => Some (VList (VList <$> rs))
        end.
Proof.
  intros H Hc Hget Hrs.
  destruct (Create_requests meta d0 r c H Hc) as (rest & Hreq & _).
  eexists _, rest. split; [exact Hreq|].
  cbn [set_co_Password Create_opts co_Options].
  assert (the_rules d0 = VList <$> rs) as ->.
  { unfold the_rules, resourceIdentityUserV3BuildMFARules. rewrite Hget.
    cbn [the_list]. by rewrite (BuildMFARules_from_app [] groups rs Hrs). }
  unfold with_rules. destruct rs as [|r0 rs]; cbn [fmap list_fmap length Nat.ltb Nat.leb].
  - rewrite Create_flags_other; [done|].
    unfold userOptions. cbn [fmap list_fmap fst]. rewrite !not_elem_of_cons.
    repeat split; first [done | apply not_elem_of_nil].
  - apply lookup_insert_eq.
Qed.

(** X11: The create request is filled from the snapshot: name, default project,
    description, domain, the extra map and the password go out as the
    snapshot holds them (lines 123-130 and 151). *)
Theorem Create_sends_the_snapshot d0 r c :
  conforms d0 = true →
  identityV3Client meta (GetRegion meta d0) = inr c →
  ∃ createOpts rest,
    requests (trace (run (resourceIdentityUserV3Create meta) d0 r).2)
      = CallCreate createOpts :: rest
    ∧ Get d0 "name" = VString (co_Name createOpts)
    ∧ Get d0 "default_project_id" = VString (co_DefaultProjectID createOpts)
    ∧ Get d0 "description" = VString (co_Description createOpts)
    ∧ Get d0 "domain_id" = VString (co_DomainID createOpts)
    ∧ Get d0 "extra" = VMap (co_Extra createOpts)
    ∧ Get d0 "password" = VString (co_Password createOpts).
Proof.
  intros H Hc.
  destruct (Create_requests meta d0 r c H Hc) as (rest & Hreq & _).
  eexists _, rest. split; [exact Hreq|].
  cbn [set_co_Password Create_opts co_Name co_DefaultProjectID co_Description
       co_DomainID co_Extra co_Password].
  repeat split; first [by apply Get_string | by apply Get_map].
Qed.

(** *** Create, then the Read it ends with *)

(** X17: Create followed by its Read is a round trip when the service keeps
    what it is sent: if the user fetched after the create request has the
    name, default project, description, domain, enabled flag and extra map
    of that request, the snapshot reads for those six fields as it did
    before Create, Create returns no error and the record has the ID the
    service gave it. *)
Theorem Create_then_Read_round_trip d0 r c created r1 c' fetched r2 :
  conforms d0 = true →
  identityV3Client meta (GetRegion meta d0) = inr c →
  users_Create meta c
    (set_co_Password (the_string (Get d0 "password")) (Create_opts d0)) r
    = (inr created, r1) →
  identityV3Client meta (GetRegion meta (SetId d0 (u_ID created))) = inr c' →
  users_Get meta c' (u_ID created) r1 = (inr fetched, r2) →
  flags_boolean (u_Options fetched) userOptions →
  u_Name fetched = co_Name (Create_opts d0) →
  u_DefaultProjectID fetched = co_DefaultProjectID (Create_opts d0) →
  u_Description fetched = co_Description (Create_opts d0) →
  u_DomainID fetched = co_DomainID (Create_opts d0) →
  Some (u_Enabled fetched) = co_Enabled (Create_opts d0) →
  u_Extra fetched = co_Extra (Create_opts d0) →
  (run (resourceIdentityUserV3Create meta) d0 r).1 = Ok tt
  ∧ Id (d (run (resourceIdentityUserV3Create meta) d0 r).2) = u_ID created
  ∧ ∀ key, key ∈ ["name"; "default_project_id"; "description"; "domain_id";
                  "enabled"; "extra"] →
      Get (d (run (resourceIdentityUserV3Create meta) d0 r).2) key = Get d0 key.
Proof.
  intros H Hc Hcreate Hc' Hget Hflags Hn Hp Hd Ho He Hx.
  unfold run. rewrite (Create_run meta _ c) by done.
  cbn [d remote trace app]. cbv zeta. rewrite Hcreate.
  rewrite (Read_fetched meta _ c' fetched r2) by done.
  cbn [fst snd d]. split; [done|]. split; [done|].
  destruct (Read_result_Get fetched (SetId d0 (u_ID created)))
    as (H1 & H2 & H3 & H4 & H5 & H6 & _).
  cbn [Create_opts co_Name co_DefaultProjectID co_Description co_DomainID
       co_Enabled co_Extra] in Hn, Hp, Hd, Ho, He, Hx.
  injection He as He.
  intros key Hk.
  repeat (apply elem_of_cons in Hk as [->|Hk]); [..|by apply elem_of_nil in Hk].
  - by rewrite H6, Hn, <- Get_string.
  - by rewrite H1, Hp, <- Get_string.
  - by rewrite H2, Hd, <- Get_string.
  - by rewrite H3, Ho, <- Get_string.
  - by rewrite H4, He, <- Get_bool.
  - by rewrite H5, Hx, <- Get_map.
Qed.

End FurtherRead.

Section FurtherUpdate.
Context {R : Type} (meta : Meta R).

Implicit Types (st : St R).

(** *** What Update sends *)

Lemma Update_request_inv d0 r c id updateOpts :
  conforms d0 = true →
  identityV3Client meta (GetRegion meta d0) = inr c →
  CallUpdate id updateOpts
    ∈ requests (trace (run (resourceIdentityUserV3Update meta) d0 r).2) →
  (Update_final d0).1 = true ∧ id = Id d0 ∧ updateOpts = (Update_final d0).2.
Proof.
  intros H Hc.
  destruct (Update_requests meta d0 r c H Hc) as (rest & -> & Hrest).
  intros [Hin|Hin]%elem_of_app.
  - destruct (Update_final d0).1; [|by apply elem_of_nil in Hin].
    apply list_elem_of_singleton in Hin. by injection Hin as -> ->.
  - by destruct (Hrest _ Hin).
Qed.

Lemma Update_flags_other d0 table acc ty :
  ty ∉ table.*1 → (Update_flags d0 table acc).2 !! ty = acc.2 !! ty.
Proof.
  revert acc. induction table as [|[ty' option] table IH];
    intros acc Hty; simpl.
  - done.
  - apply not_elem_of_cons in Hty as [Hne Hty]. rewrite IH by done.
    destruct (HasChange d0 option); [|done].
    cbn [snd]. by rewrite lookup_insert_ne.
Qed.

Lemma Update_flags_lookup d0 table acc ty option :
  NoDup table.*1 → (ty, option) ∈ table →
  (Update_flags d0 table acc).2 !! ty
  = if HasChange d0 option
    then Some (VBool (the_bool (Get d0 option)))
    else acc.2 !! ty.
Proof.
  revert acc. induction table as [|[ty' option'] table IH];
    intros acc Hnd Hin.
  - by apply elem_of_nil in Hin.
  - cbn [fmap list_fmap fst] in Hnd. apply NoDup_cons in Hnd as [Hfresh Hnd].
    cbn [Update_flags].
    apply elem_of_cons in Hin as [[= -> ->]|Hin].
    + rewrite Update_flags_other by done.
      destruct (HasChange d0 option'); [|done].
      cbn [snd]. by rewrite lookup_insert_eq.
    + rewrite (IH _ Hnd Hin).
      destruct (HasChange d0 option); [done|].
      assert (ty ≠ ty') as Hne.
      { intros ->. apply Hfresh. apply list_elem_of_fmap. by exists (ty', option). }
      destruct (HasChange d0 option'); [|done].
      cbn [snd]. by rewrite lookup_insert_ne.
Qed.

Lemma userOptions_NoDup : NoDup userOptions.*1 ∧ NoDup userOptions.*2.
Proof.
  unfold userOptions. cbn [fmap list_fmap fst snd].
  split;
    repeat (apply NoDup_cons_2;
            [rewrite ?not_elem_of_cons;
             repeat split; first [done | apply not_elem_of_nil]|]);
    apply NoDup_nil_2.
Qed.

Lemma Update_final_Options d0 :
  ∃ h,
    uo_Options (Update_final d0).2
    = Some (if HasChange d0 "multi_factor_auth_rule"
            then with_rules (the_rules d0) (Update_flags d0 userOptions (h, ∅)).2
            else (Update_flags d0 userOptions (h, ∅)).2).
Proof.
  unfold Update_final. rewrite (changed_field_proj uo_Options) by done.
  unfold Update_plan. cbv zeta. cbn [snd set_uo_Options uo_Options].
  eexists. reflexivity.
Qed.

(** X12: Update sends a flag exactly when it changed, and then with the value
    the snapshot holds for it, be it [true] or [false]; a flag that did
    not change is left out of the options of the request
    (lines 249-255). *)
Theorem Update_sends_changed_flags d0 r c ty option updateOpts :
  conforms d0 = true →
  identityV3Client meta (GetRegion meta d0) = inr c →
  (ty, option) ∈ userOptions →
  CallUpdate (Id d0) updateOpts
    ∈ requests (trace (run (resourceIdentityUserV3Update meta) d0 r).2) →
  ∃ options b,
    uo_Options updateOpts = Some options
    ∧ Get d0 option = VBool b
    ∧ options !! ty = if HasChange d0 option then Some (VBool b) else None.
Proof.
  intros H Hc Hin Hreq.
  destruct (Update_request_inv d0 r c _ _ H Hc Hreq) as (_ & _ & ->).
  destruct (Update_final_Options d0) as [h Ho].
  assert (ty ≠ MultiFactorAuthRules
          ∧ schema_type Schema option = Some TypeBool) as [Hty Hs].
  { unfold userOptions in Hin.
    repeat (apply elem_of_cons in Hin as [[= -> ->]|Hin]; [done|]).
    by apply elem_of_nil in Hin. }
  eexists _, (the_bool (Get d0 option)). split; [exact Ho|].
  split; [by apply Get_bool|].
  assert (∀ m : gmap Option value,
            (if HasChange d0 "multi_factor_auth_rule"
             then with_rules (the_rules d0) m else m) !! ty = m !! ty) as ->.
  { intros m. destruct (HasChange d0 "multi_factor_auth_rule"); [|done].
    by apply with_rules_flag. }
  rewrite (Update_flags_lookup d0 userOptions _ ty option)
    by (first [apply userOptions_NoDup | done]).
  by destruct (HasChange d0 option).
Qed.

(** X13: When Update sends a request and the rule list has changed, the options
    carry the whole new list, flattened, under the MFA-rules key, unless
    the new list is empty: then the key is left out, as it is when the
    rule list has not changed (lines 258-263). *)
Theorem Update_rules_option d0 r c groups rs updateOpts :
  conforms d0 = true →
  identityV3Client meta (GetRegion meta d0) = inr c →
  Get d0 "multi_factor_auth_rule" = VList groups →
  Forall2 carries_rule groups rs →
  CallUpdate (Id d0) updateOpts
    ∈ requests (trace (run (resourceIdentityUserV3Update meta) d0 r).2) →
  ∃ options,
    uo_Options updateOpts = Some options
    ∧ options !! MultiFactorAuthRules
      = if HasChange d0 "multi_factor_auth_rule"
        then match rs with
             | [] => None
             | _ :: _ => Some (VList (VList <$> rs))
             end
        else None.
Proof.
  intros H Hc Hget Hrs Hreq.
  destruct (Update_request_inv d0 r c _ _ H Hc Hreq) as (_ & _ & ->).
  destruct (Update_final_Options d0) as [h Ho].
  eexists. split; [exact Ho|].
  assert ((Update_flags d0 userOptions (h, ∅)).2 !! MultiFactorAuthRules = None)
    as Hnone.
  { rewrite Update_flags_other; [done|].
    unfold userOptions. cbn [fmap list_fmap fst]. rewrite !not_elem_of_cons.
    repeat split; first [done | apply not_elem_of_nil]. }
  destruct (HasChange d0 "multi_factor_auth_rule"); [|exact Hnone].
  assert (the_rules d0 = VList <$> rs) as ->.
  { unfold the_rules, resourceIdentityUserV3BuildMFARules. rewrite Hget.
    cbn [the_list]. by rewrite (BuildMFARules_from_app [] groups rs Hrs). }
  unfold with_rules.
  destruct rs as [|r0 rs]; cbn [fmap list_fmap length Nat.ltb Nat.leb].
  - exact Hnone.
  - apply lookup_insert_eq.
Qed.

Lemma Update_final_fields d0 :
  uo_DefaultProjectID (Update_final d0).2
    = (if HasChange d0 "default_project_id"
       then the_string (Get d0 "default_project_id") else "")
  ∧ uo_Description (Update_final d0).2
    = (if HasChange d0 "description"
       then the_string (Get d0 "description") else "")
  ∧ uo_DomainID (Update_final d0).2
    = (if HasChange d0 "domain_id" then the_string (Get d0 "domain_id") else "")
  ∧ uo_Enabled (Update_final d0).2
    = (if HasChange d0 "enabled"
       then Some (the_bool (Get d0 "enabled")) else None)
  ∧ uo_Extra (Update_final d0).2
    = (if HasChange d0 "extra" then Some (the_map (Get d0 "extra")) else None)
  ∧ uo_Name (Update_final d0).2
    = (if HasChange d0 "name" then the_string (Get d0 "name") else "")
  ∧ uo_Password (Update_final d0).2
    = (if HasChange d0 "password" then the_string (Get d0 "password") else "").
Proof.
  unfold Update_final, Update_plan. cbv zeta.
  repeat split.
  - rewrite (changed_field_proj uo_DefaultProjectID) by done.
    cbn [snd set_uo_Options uo_DefaultProjectID].
    rewrite !(changed_field_proj uo_DefaultProjectID) by done.
    unfold changed_field. destruct (HasChange d0 "default_project_id"); reflexivity.
  - rewrite (changed_field_proj uo_Description) by done.
    cbn [snd set_uo_Options uo_Description].
    rewrite !(changed_field_proj uo_Description) by done.
    unfold changed_field at 1. destruct (HasChange d0 "description"); [reflexivity|].
    by rewrite !(changed_field_proj uo_Description).
  - rewrite (changed_field_proj uo_DomainID) by done.
    cbn [snd set_uo_Options uo_DomainID].
    rewrite !(changed_field_proj uo_DomainID) by done.
    unfold changed_field at 1. destruct (HasChange d0 "domain_id"); [reflexivity|].
    by rewrite !(changed_field_proj uo_DomainID).
  - rewrite (changed_field_proj uo_Enabled) by done.
    cbn [snd set_uo_Options uo_Enabled].
    rewrite !(changed_field_proj uo_Enabled) by done.
    unfold changed_field at 1. destruct (HasChange d0 "enabled"); [reflexivity|].
    by rewrite !(changed_field_proj uo_Enabled).
  - rewrite (changed_field_proj uo_Extra) by done.
    cbn [snd set_uo_Options uo_Extra].
    rewrite !(changed_field_proj uo_Extra) by done.
    unfold changed_field at 1. destruct (HasChange d0 "extra"); [reflexivity|].
    by rewrite !(changed_field_proj uo_Extra).
  - rewrite (changed_field_proj uo_Name) by done.
    cbn [snd set_uo_Options uo_Name].
    unfold changed_field at 1. destruct (HasChange d0 "name"); [reflexivity|].
    by rewrite !(changed_field_proj uo_Name).
  - unfold changed_field at 1. destruct (HasChange d0 "password"); [reflexivity|].
    cbn [snd set_uo_Options uo_Password].
    by rewrite !(changed_field_proj uo_Password).
Qed.

(** X14: The payload of Update is partial: a scalar field, the extra map and the
    password go out with the value of the snapshot when they changed, and
    with the zero value of the payload (empty, or absent) when they did
    not (lines 217-246 and 271-274). *)
Theorem Update_sends_what_changed d0 r c updateOpts :
  conforms d0 = true →
  identityV3Client meta (GetRegion meta d0) = inr c →
  CallUpdate (Id d0) updateOpts
    ∈ requests (trace (run (resourceIdentityUserV3Update meta) d0 r).2) →
  uo_DefaultProjectID updateOpts
    = (if HasChange d0 "default_project_id"
       then the_string (Get d0 "default_project_id") else "")
  ∧ uo_Description updateOpts
    = (if HasChange d0 "description"
       then the_string (Get d0 "description") else "")
  ∧ uo_DomainID updateOpts
    = (if HasChange d0 "domain_id" then the_string (Get d0 "domain_id") else "")
  ∧ uo_Enabled updateOpts
    = (if HasChange d0 "enabled"
       then Some (the_bool (Get d0 "enabled")) else None)
  ∧ uo_Extra updateOpts
    = (if HasChange d0 "extra" then Some (the_map (Get d0 "extra")) else None)
  ∧ uo_Name updateOpts
    = (if HasChange d0 "name" then the_string (Get d0 "name") else "")
  ∧ uo_Password updateOpts
    = (if HasChange d0 "password" then the_string (Get d0 "password") else "").
Proof.
  intros H Hc Hreq.
  destruct (Update_request_inv d0 r c _ _ H Hc Hreq) as (_ & _ & ->).
  apply Update_final_fields.
Qed.

Lemma Update_plan_changed d0 :
  (Update_plan d0).1 = true
  ↔ ∃ key, key ∈ tracked ∧ key ≠ "password" ∧ HasChange d0 key = true.
Proof.
  rewrite Update_plan_fst. unfold tracked. cbn [tail]. split.
  - intros (key & Hin%list_elem_of_In & Hk)%existsb_exists. exists key.
    split; [by right|]. split; [|done].
    repeat (apply elem_of_cons in Hin as [->|Hin]; [done|]).
    by apply elem_of_nil in Hin.
  - intros (key & Hin & Hne & Hk). apply existsb_exists. exists key.
    split; [|done]. apply list_elem_of_In.
    by apply elem_of_cons in Hin as [->|Hin].
Qed.

(** X15: Update writes its debug entry when a field other than the password
    has set [hasChange]; the entry comes first in the run and prints no
    password.  When the password is the only such field that changed, the
    request goes out with it and the run starts with that request: nothing
    of the update is logged (lines 267-274). *)
Theorem Update_logs_before_the_password d0 r c :
  conforms d0 = true →
  identityV3Client meta (GetRegion meta d0) = inr c →
  ((∃ key, key ∈ tracked ∧ key ≠ "password" ∧ HasChange d0 key = true) →
     ∃ logged_opts rest,
       trace (run (resourceIdentityUserV3Update meta) d0 r).2
       = Log "[DEBUG] Update Options: %#v" (PUpdateOpts logged_opts) :: rest
       ∧ uo_Password logged_opts = "")
  ∧ ((∀ key, key ∈ tracked → key ≠ "password" → HasChange d0 key = false) →
     HasChange d0 "password" = true →
     ∃ updateOpts password rest,
       trace (run (resourceIdentityUserV3Update meta) d0 r).2
       = Request (CallUpdate (Id d0) updateOpts) :: rest
       ∧ Get d0 "password" = VString password
       ∧ uo_Password updateOpts = password
       ∧ ∀ f a, (f, a) ∈ logged rest → ∃ u, a = PUser u).
Proof.
  intros H Hc.
  destruct (Update_trace meta d0 r c H Hc) as (extra & Ht & He).
  split.
  - intros Hch%Update_plan_changed. rewrite Hch in Ht.
    eexists _, _. split; [exact Ht|]. apply Update_plan_Password.
  - intros Hno Hpw.
    assert ((Update_plan d0).1 = false) as Hplan.
    { destruct (Update_plan d0).1 eqn:Hp; [|done].
      apply Update_plan_changed in Hp as (key & Hin & Hne & Hk).
      by rewrite Hno in Hk. }
    assert ((Update_final d0).1 = true) as Hfinal.
    { apply Update_final_changed. exists "password". split; [|done].
      unfold tracked. by left. }
    rewrite Hplan, Hfinal in Ht. cbn [app] in Ht.
    exists (Update_final d0).2, (the_string (Get d0 "password")), extra.
    split; [exact Ht|]. split; [by apply Get_string|]. split.
    + destruct (Update_final_fields d0) as (_ & _ & _ & _ & _ & _ & Hp).
      by rewrite Hp, Hpw.
    + intros f a. by apply Read_events_logged.
Qed.

End FurtherUpdate.

Section FlagTable.
Context {R : Type} (meta : Meta R).

Implicit Types (st : St R).

(** *** The order of the flag table *)

Lemma existsb_Permutation {A} (f : A → bool) l1 l2 :
  l1 ≡ₚ l2 → existsb f l1 = existsb f l2.
Proof.
  induction 1 as [|x l1 l2 _ IH|x y l|l1 l2 l3 _ IH1 _ IH2]; simpl.
  - done.
  - by rewrite IH.
  - by destruct (f x), (f y).
  - by rewrite IH1.
Qed.

Lemma Create_flags_lookup_in d0 table options ty option :
  NoDup table.*1 → (ty, option) ∈ table →
  Create_flags d0 table options !! ty
  = if (GetOk d0 option).2
    then Some (VBool (the_bool (GetOk d0 option).1))
    else options !! ty.
Proof.
  revert options. induction table as [|[ty' option'] table IH];
    intros options Hnd Hin.
  - by apply elem_of_nil in Hin.
  - cbn [fmap list_fmap fst] in Hnd. apply NoDup_cons in Hnd as [Hfresh Hnd].
    cbn [Create_flags].
    apply elem_of_cons in Hin as [[= -> ->]|Hin].
    + rewrite Create_flags_other by done.
      destruct (GetOk d0 option') as [v [|]]; [|done].
      cbn [fst snd]. by rewrite lookup_insert_eq.
    + rewrite (IH _ Hnd Hin).
      destruct (GetOk d0 option) as [v [|]]; [done|]. cbn [snd].
      assert (ty ≠ ty') as Hne.
      { intros ->. apply Hfresh. apply list_elem_of_fmap. by exists (ty', option). }
      destruct (GetOk d0 option') as [v' [|]]; [|done].
      by rewrite lookup_insert_ne.
Qed.

Lemma Create_flags_Permutation d0 table options :
  table ≡ₚ userOptions →
  Create_flags d0 table options = Create_flags d0 userOptions options.
Proof.
  intros Hperm. apply map_eq. intros ty.
  assert (NoDup table.*1) as Hnd.
  { rewrite Hperm. apply userOptions_NoDup. }
  destruct (decide (ty ∈ table.*1)) as [Hin|Hout].
  - apply list_elem_of_fmap in Hin as ([ty' option] & -> & Hin). cbn [fst].
    rewrite (Create_flags_lookup_in d0 table options ty' option) by done.
    rewrite (Create_flags_lookup_in d0 userOptions options ty' option);
      [done|apply userOptions_NoDup|by rewrite <- Hperm].
  - rewrite !Create_flags_other; [done| |done]. by rewrite <- Hperm.
Qed.

Lemma Update_flags_Permutation d0 table acc :
  table ≡ₚ userOptions →
  Update_flags d0 table acc = Update_flags d0 userOptions acc.
Proof.
  intros Hperm.
  assert (NoDup table.*1) as Hnd.
  { rewrite Hperm. apply userOptions_NoDup. }
  rewrite (surjective_pairing (Update_flags d0 table acc)),
          (surjective_pairing (Update_flags d0 userOptions acc)).
  f_equal.
  - rewrite !Update_flags_fst. f_equal. by apply existsb_Permutation.
  - apply map_eq. intros ty.
    destruct (decide (ty ∈ table.*1)) as [Hin|Hout].
    + apply list_elem_of_fmap in Hin as ([ty' option] & -> & Hin). cbn [fst].
      rewrite (Update_flags_lookup d0 table acc ty' option) by done.
      rewrite (Update_flags_lookup d0 userOptions acc ty' option);
        [done|apply userOptions_NoDup|by rewrite <- Hperm].
    + rewrite !Update_flags_other; [done| |done]. by rewrite <- Hperm.
Qed.

Lemma flagWrites_Permutation options table w :
  table ≡ₚ userOptions →
  flagWrites options table w = flagWrites options userOptions w.
Proof.
  intros Hperm. apply map_eq. intros key.
  destruct (decide (key ∈ table.*2)) as [Hin|Hout].
  - rewrite !flagWrites_flag; [done| |done]. by rewrite <- Hperm.
  - rewrite !flagWrites_other; [done| |done]. by rewrite <- Hperm.
Qed.

Lemma Read_loop_cases options table :
  flags_boolean options table
  ∨ Exists (λ entry, ∃ v, options !! entry.2 = Some v ∧ ∀ b, v ≠ VBool b) table.
Proof.
  induction table as [|[ty option] table IH].
  - left. constructor.
  - destruct (options !! option) as [v|] eqn:Hv.
    + destruct (decide (∃ b, v = VBool b)) as [[b ->]|Hno].
      * destruct IH as [IH|IH]; [left|right; by apply Exists_cons_tl].
        constructor; [|done]. cbn [snd]. intros v. rewrite Hv.
        intros [= <-]. eauto.
      * right. apply Exists_cons_hd. exists v. cbn [snd]. split; [done|].
        intros b ->. apply Hno. eauto.
    + destruct IH as [IH|IH]; [left|right; by apply Exists_cons_tl].
      constructor; [|done]. cbn [snd]. intros v. by rewrite Hv.
Qed.

(** X16: Go ranges over the flag table in no fixed order.  The three loops do
    not depend on it: run over any arrangement of the four entries, the
    loop of Create collects the same options, the loop of Update the same
    options and the same [hasChange], and the loop of Read ends the same
    way, with the same snapshot when it does not panic. *)
Theorem table_order_is_immaterial table st options acc collected :
  conforms (d st) = true →
  table ≡ₚ userOptions →
  forRange table Create_option collected st
    = forRange userOptions Create_option collected st
  ∧ forRange table Update_option acc st
    = forRange userOptions Update_option acc st
  ∧ (forRange table (Read_option options) tt st).1
    = (forRange userOptions (Read_option options) tt st).1
  ∧ ((forRange userOptions (Read_option options) tt st).1 = Ok tt →
     forRange table (Read_option options) tt st
     = forRange userOptions (Read_option options) tt st).
Proof.
  intros H Hperm.
  assert (table ⊆ userOptions) as Hsub by (by rewrite Hperm).
  split; [|split; [|split]].
  - rewrite !Create_loop_ok by done.
    by rewrite (Create_flags_Permutation _ _ _ Hperm).
  - rewrite !Update_loop_ok by done.
    by rewrite (Update_flags_Permutation _ _ _ Hperm).
  - destruct (Read_loop_cases options userOptions) as [Hb|Hbad].
    + rewrite !Read_loop_ok; [done|done|].
      unfold flags_boolean. by rewrite Hperm.
    + rewrite !(Read_loop_panic); [done|done|]. by rewrite Hperm.
  - destruct (forRange userOptions (Read_option options) tt st)
      as [out st'] eqn:Hloop. cbn [fst]. intros ->.
    pose proof (Read_loop_inv _ _ _ _ _ Hloop) as Hb.
    rewrite <- Hloop. rewrite !Read_loop_ok; [|done|].
    + by rewrite (flagWrites_Permutation _ _ _ Hperm).
    + unfold flags_boolean. by rewrite Hperm.
Qed.

End FlagTable.

(** ** The further properties on closed inputs *)

Lemma Delete_one_request_witness :
  (run (resourceIdentityUserV3Delete service_full) d_known tt).1
    = Err (ErrMsg "Error deleting ECL user: forbidden")
  ∧ d (run (resourceIdentityUserV3Delete service_full) d_known tt).2 = d_known
  ∧ trace (run (resourceIdentityUserV3Delete service_full) d_known tt).2
    = [Request (CallDelete "u1")].
Proof.
  destruct (Delete_one_request service_full (mkSt d_known tt []) "jp1")
    as (Hout & Hd & _ & Ht); [vm_compute; reflexivity|].
  split; [exact Hout|]. split; [exact Hd | exact Ht].
Defined.

Lemma no_client_no_effect_witness :
  run (resourceIdentityUserV3Create service_unconfigured) d_create tt
  = (Err (ErrMsg "Error creating ECL identity client: no endpoint"),
     mkSt d_create tt []).
Proof.
  apply (no_client_no_effect service_unconfigured (mkSt d_create tt [])
           (ErrMsg "no endpoint")).
  vm_compute; reflexivity.
Defined.

Lemma BuildMFARules_outcome_witness :
  Exists (λ g, ∀ r, ¬ carries_rule g r) [mfaGroup otp_sms; VString "otp"].
Proof. exact (BuildMFARules_outcome [mfaGroup otp_sms; VString "otp"]). Defined.

Lemma regroup_then_flatten_witness :
  resourceIdentityUserV3BuildMFARules
    [mfaGroup otp_sms; mfaGroup (VList [VString "totp"])]
  = Ok [otp_sms; VList [VString "totp"]].
Proof.
  exact (regroup_then_flatten [[VString "otp"; VString "sms"]; [VString "totp"]]).
Defined.

Lemma flatten_then_regroup_witness :
  mfaGroup <$> [otp_sms; VList [VString "totp"]]
  = [mfaGroup otp_sms; mfaGroup (VList [VString "totp"])].
Proof.
  apply (flatten_then_regroup
           [mfaGroup otp_sms; mfaGroup (VList [VString "totp"])]
           [otp_sms; VList [VString "totp"]]).
  - repeat constructor; eexists; reflexivity.
  - vm_compute; reflexivity.
Defined.

Lemma Read_touches_only_its_fields_witness :
  Get (d (run (resourceIdentityUserV3Read service) d_known tt).2) "password"
  = Get d_known "password"
  ∧ planned (d (run (resourceIdentityUserV3Read service) d_known tt).2)
    = planned d_known.
Proof.
  destruct (Read_touches_only_its_fields service (mkSt d_known tt []))
    as (_ & Hp & _ & _ & Hpw).
  split; [exact Hpw | exact Hp].
Defined.

Lemma Read_writes_scalars_witness :
  Get (d (run (resourceIdentityUserV3Read service) d_known tt).2) "name"
    = VString "alice"
  ∧ Get (d (run (resourceIdentityUserV3Read service) d_known tt).2) "domain_id"
    = VString "default".
Proof.
  destruct (Read_writes_scalars service (mkSt d_known tt []) "jp1" alice tt)
    as (_ & _ & Hdom & _ & _ & Hname & _);
    [vm_compute; reflexivity | reflexivity | vm_compute; reflexivity |].
  split; [exact Hname | exact Hdom].
Defined.

Lemma Read_panics_on_odd_flag_witness :
  (run (resourceIdentityUserV3Read service_odd) d_known tt).1 = Panic.
Proof.
  apply (Read_panics_on_odd_flag service_odd (mkSt d_known tt []) "jp1"
           alice_odd tt IgnorePasswordExpiry "ignore_password_expiry"
           (VString "yes"));
    [vm_compute; reflexivity | reflexivity | repeat constructor
    | vm_compute; reflexivity | intros b; discriminate].
Defined.

Lemma Create_records_the_returned_id_witness :
  Id (d (run (resourceIdentityUserV3Create service) d_create tt).2) = "u1"
  ∨ Id (d (run (resourceIdentityUserV3Create service) d_create tt).2) = "".
Proof.
  destruct (Create_records_the_returned_id service d_create tt "jp1")
    as (createOpts & logged_opts & Hrun);
    [vm_compute; reflexivity | vm_compute; reflexivity |].
  cbn [users_Create service scripted] in Hrun.
  destruct Hrun as (_ & Hid & _). exact Hid.
Defined.

Lemma Create_rules_option_witness :
  ∃ createOpts rest,
    requests (trace (run (resourceIdentityUserV3Create service) d_create tt).2)
      = CallCreate createOpts :: rest
    ∧ co_Options createOpts !! MultiFactorAuthRules = Some (VList [otp_sms]).
Proof.
  apply (Create_rules_option service d_create tt "jp1" [mfaGroup otp_sms]
           [[VString "otp"; VString "sms"]]);
    [vm_compute; reflexivity | vm_compute; reflexivity | vm_compute; reflexivity
    | repeat constructor; eexists; split; reflexivity].
Defined.

Lemma Create_sends_the_snapshot_witness :
  ∃ createOpts rest,
    requests (trace (run (resourceIdentityUserV3Create service) d_create tt).2)
      = CallCreate createOpts :: rest
    ∧ VString "alice" = VString (co_Name createOpts)
    ∧ VString "s3cret" = VString (co_Password createOpts).
Proof.
  destruct (Create_sends_the_snapshot service d_create tt "jp1")
    as (createOpts & rest & Hreq & Hname & _ & _ & _ & _ & Hpw);
    [vm_compute; reflexivity | vm_compute; reflexivity |].
  exists createOpts, rest. split; [exact Hreq|].
  split; [exact Hname | exact Hpw].
Defined.

Lemma Update_sends_changed_flags_witness :
  ∃ options,
    uo_Options relaxed_sent = Some options
    ∧ options !! IgnorePasswordExpiry = Some (VBool false).
Proof.
  destruct (Update_sends_changed_flags service d_relaxed tt "jp1"
              IgnorePasswordExpiry "ignore_password_expiry" relaxed_sent)
    as (options & b & Hopts & Hb & Hlook);
    [vm_compute; reflexivity | vm_compute; reflexivity | repeat constructor
    | vm_compute; constructor |].
  exists options. split; [exact Hopts|].
  assert (b = false) as -> by (vm_compute in Hb; congruence).
  exact Hlook.
Defined.

Lemma Update_rules_option_witness :
  ∃ options,
    uo_Options ruled_sent = Some options
    ∧ options !! MultiFactorAuthRules
      = Some (VList [otp_sms; VList [VString "totp"]]).
Proof.
  apply (Update_rules_option service d_ruled_described tt "jp1"
           [mfaGroup otp_sms; mfaGroup (VList [VString "totp"])]
           [[VString "otp"; VString "sms"]; [VString "totp"]] ruled_sent);
    [vm_compute; reflexivity | vm_compute; reflexivity | vm_compute; reflexivity
    | repeat constructor; eexists; split; reflexivity
    | vm_compute; constructor].
Defined.

Lemma Update_sends_what_changed_witness :
  uo_Description described_sent = "new" ∧ uo_Name described_sent = "".
Proof.
  destruct (Update_sends_what_changed service d_described tt "jp1" described_sent)
    as (_ & Hdesc & _ & _ & _ & Hname & _);
    [vm_compute; reflexivity | vm_compute; reflexivity
    | vm_compute; constructor |].
  split; [exact Hdesc | exact Hname].
Defined.

Lemma Update_logs_before_the_password_witness :
  ∃ updateOpts password rest,
    trace (run (resourceIdentityUserV3Update service) d_rekeyed tt).2
      = Request (CallUpdate "u1" updateOpts) :: rest
    ∧ Get d_rekeyed "password" = VString password
    ∧ uo_Password updateOpts = password.
Proof.
  destruct (Update_logs_before_the_password service d_rekeyed tt "jp1")
    as [_ Hquiet]; [vm_compute; reflexivity | vm_compute; reflexivity |].
  destruct Hquiet as (updateOpts & password & rest & Ht & Hget & Hpw & _).
  - intros key Hin Hne. unfold tracked in Hin.
    repeat (apply elem_of_cons in Hin as [->|Hin];
            [first [by destruct Hne | vm_compute; reflexivity]|]).
    by apply elem_of_nil in Hin.
  - vm_compute; reflexivity.
  - exists updateOpts, password, rest. split; [exact Ht|].
    split; [exact Hget | exact Hpw].
Defined.

Lemma table_order_is_immaterial_witness :
  forRange (reverse userOptions) Create_option ∅ (mkSt d_create tt [])
  = forRange userOptions Create_option ∅ (mkSt d_create tt []).
Proof.
  apply (table_order_is_immaterial (reverse userOptions) (mkSt d_create tt [])
           ∅ (false, ∅) ∅);
    [vm_compute; reflexivity | apply reverse_Permutation].
Defined.

Lemma Create_then_Read_round_trip_witness :
  (run (resourceIdentityUserV3Create service) d_alice tt).1 = Ok tt
  ∧ Get (d (run (resourceIdentityUserV3Create service) d_alice tt).2) "name"
    = Get d_alice "name".
Proof.
  destruct (Create_then_Read_round_trip service d_alice tt "jp1" alice tt
              "jp1" alice tt) as (Hok & _ & Hsame);
    [vm_compute; reflexivity | vm_compute; reflexivity | reflexivity
    | vm_compute; reflexivity | reflexivity
    | repeat constructor; cbn [snd]; intros v Hv; vm_compute in Hv;
      simplify_eq; eauto
    | vm_compute; reflexivity | vm_compute; reflexivity
    | vm_compute; reflexivity | vm_compute; reflexivity
    | vm_compute; reflexivity | vm_compute; reflexivity |].
  split; [exact Hok|]. apply Hsame. by left.
Defined.
